(** * AssetComposeTransaction: encoding, signing hash and address derivation

    A shallow embedding of [src/core/transaction/AssetComposeTransaction.ts]
    and [src/core/transaction/AssetOutPoint.ts] of codechain-sdk-js, with the
    properties the specification states about them.

    Conventions of the embedding:
    - a JavaScript [number] holding an integer is a [Z]; the 32-bit
      conversions of the bit operators are written out ([ToInt32]);
    - a JavaScript string is a [string], a [Buffer] is a [list byte];
    - a method that may [throw] returns [Error + A];
    - the one method that writes to its receiver ([addInputs]) returns the
      receiver after the call next to its outcome. *)

From Stdlib Require Import ZArith NArith List String Ascii Bool Lia.
From Stdlib.Strings Require Import Byte.
From Stdlib Require HexString.
Import ListNotations.

#[local] Open Scope string_scope.
#[local] Open Scope Z_scope.

(** ** JavaScript primitives used by the source *)

Definition Buffer := list byte.

(** What a [throw] of the source carries.  The source throws plain [Error]
    values that differ by their message; the constructors are named after
    the error classes of the specification. *)
Inductive TagField := TagInput | TagOutput.

Inductive Error :=
| MissingIndex                          (* "Unexpected value of the index: ..." *)
| InvalidSignatureTag (f : TagField)    (* "Unexpected value of the tag input/output: ..." *)
| UnsupportedOperation                  (* "not implemented" *)
| InvalidInput (index : nat)            (* "Expected an array of either AssetTransferInput or Asset but found ... at index" *)
| IntegerOverflow                       (* raised by the U64 arithmetic *)
| TypeError                             (* the runtime's error on reading a property of [undefined] *)
| InvalidFieldValue.                    (* raised by a value type given a value it cannot hold *)

(** [ToInt32]: the conversion the operators [>>] and [&] apply to their
    operands. *)
Definition ToInt32 (z : Z) : Z := (z + 2 ^ 31) mod 2 ^ 32 - 2 ^ 31.

(** [a >> n] *)
Definition js_sar (a n : Z) : Z := Z.shiftr (ToInt32 a) (n mod 32).

(** [a & b] *)
Definition js_and (a b : Z) : Z := Z.land (ToInt32 a) (ToInt32 b).

(** [Number.prototype.toString(16)] on an integer. *)
Definition Number_toString16 (z : Z) : string :=
  match z with
  | Z0 => "0"
  | Zpos p => HexString.Raw.of_pos p ""
  | Zneg p => "-" ++ HexString.Raw.of_pos p ""
  end.

(** [s.slice(-n)]: the last [n] characters, the whole string when it is
    shorter. *)
Definition slice_last (n : nat) (s : string) : string :=
  substring (String.length s - n) n s.

(** The characters the regular expression [.] does not match, among those
    of one byte. *)
Definition is_line_terminator (c : ascii) : bool :=
  (Ascii.eqb c "010" || Ascii.eqb c "013")%char.

(** [s.replace(new RegExp(`^.{n}`), prefix)]: when [s] starts with [n]
    characters none of which ends a line, they are replaced by [prefix];
    otherwise [s] is returned as it is.  ([prefix] holds no [$] at the call
    sites, so it is inserted literally.) *)
Definition replace_leading (n : nat) (prefix s : string) : string :=
  if ((n <=? String.length s)%nat
      && forallb (fun c => negb (is_line_terminator c))
                 (list_ascii_of_string (substring 0 n s)))%bool
  then prefix ++ substring n (String.length s - n) s
  else s.

(** ** [convertU16toHex] *)

Definition convertU16toHex (id : Z) : string :=
  let hi := slice_last 2 ("0" ++ Number_toString16 (js_and (js_sar id 8) 255)) in
  let lo := slice_last 2 ("0" ++ Number_toString16 (js_and id 255)) in
  hi ++ lo.

(** The reading of the specification: the four hexadecimal digits of a
    16-bit value, most significant first. *)
Definition hex_digit (n : Z) : ascii :=
  match n with
  | 0 => "0" | 1 => "1" | 2 => "2" | 3 => "3" | 4 => "4" | 5 => "5"
  | 6 => "6" | 7 => "7" | 8 => "8" | 9 => "9" | 10 => "a" | 11 => "b"
  | 12 => "c" | 13 => "d" | 14 => "e" | _ => "f"
  end%char.

Definition hex_byte (b : Z) : string :=
  String (hex_digit (b / 16)) (String (hex_digit (b mod 16)) "").

Definition hex_u16_be (v : Z) : string :=
  hex_byte (v / 256) ++ hex_byte (v mod 256).

Definition is_hex_digit (c : ascii) : bool :=
  let n := nat_of_ascii c in
  ((48 <=? n) && (n <=? 57) || (97 <=? n) && (n <=? 102))%nat.

(** A digest of [n] lowercase hexadecimal digits. *)
Definition is_hex_digest (n : nat) (s : string) : bool :=
  ((String.length s =? n)%nat && forallb is_hex_digit (list_ascii_of_string s))%bool.

(** ** Results of fallible code *)

Definition bind {A B : Type} (m : Error + A) (f : A -> Error + B) : Error + B :=
  match m with
  | inl e => inl e
  | inr a => f a
  end.

Notation "x <- m ;; k" := (bind m (fun x => k))
  (at level 61, m at next level, right associativity).

(** ** Value types

    [H160], [H256], [U64] and [PlatformAddress] are not under src/ (the
    specification treats them as opaque values with a canonical string
    form).  Each is represented by the canonical form the source reads
    through [.value] and [toString()]; the checks their constructors make on
    a malformed string are not part of the model. *)

Module H160.
(** Modelled from the spec: [H160], which is not under src/: a 160-bit
    hash, held as its lowercase hexadecimal string. *)
Record t := new { value : string }.
End H160.

Module H256.
(** Modelled from the spec: [H256], which is not under src/: a 256-bit
    hash, held as its lowercase hexadecimal string. *)
Record t := new { value : string }.

(** [H256.ensure] on a string. *)
Definition ensure (s : string) : t := new s.
End H256.

Module PlatformAddress.
(** Modelled from the spec: [PlatformAddress], which is not under src/: an
    address, held as its string form. *)
Record t := fromString { value : string }.

Definition toString (a : t) : string := value a.

(** [PlatformAddress.ensure] on a string, and on an address. *)
Definition ensure_string (s : string) : t := fromString s.

Definition ensure (a : t) : t := a.
End PlatformAddress.

Module U64.
(** Modelled from the spec: [U64] of [core/U64], which is not under src/:
    an unsigned integer with a defined maximum. *)
Record t := new { value : N }.

Definition MAX_VALUE : t := new 18446744073709551615.

(** Modelled from the spec: [toString(16)], which is not under src/: the
    lowercase hexadecimal digits of the value, no leading zero. *)
Definition toString16 (a : t) : string :=
  match value a with
  | N0 => "0"
  | Npos p => HexString.Raw.of_pos p ""
  end.

(** Modelled from the spec: [U64.ensure] on a string, which is not under
    src/, on the [0x]-prefixed hexadecimal string form. *)
Definition ensure_string (s : string) : t := new (HexString.to_N s).

(** [U64.ensure] on a value that is a [U64] already. *)
Definition ensure (a : t) : t := a.
End U64.

Definition NetworkId := string.

(** ** Input of the canonical encoder *)

#[warnings="-register-all"]
Inductive RlpItem :=
| RNum (n : Z)
| RStr (s : string)
| RBuf (b : Buffer)
| RList (l : list RlpItem).

(** The argument of the hash functions of [utils]: a [Buffer], or a string
    of hexadecimal digits. *)
Inductive Data :=
| OfBuffer (b : Buffer)
| OfHex (s : string).

(** ** Signature tag *)

Inductive TagInputValue :=
| InputAll                   (* "all" *)
| InputSingle                (* "single" *)
| InputOther (v : string).   (* any other value reaching the run-time check *)

Inductive TagOutputValue :=
| OutputAll                  (* "all" *)
| OutputIndices (l : list Z) (* an array *)
| OutputOther (v : string).  (* any other value reaching the run-time check *)

Module SignatureTag.
Record t := new { input : TagInputValue; output : TagOutputValue }.
End SignatureTag.

(** ** External functions

    The hash functions and the tag codec of [utils], the RLP encoder and the
    [toEncodeObject] methods of the value types are outside src/: the model
    is parametric in them. *)
Class Primitives := {
  blake256 : Data -> string;
  blake256WithKey : Data -> Buffer -> string;
  blake128 : Data -> string;
  encodeSignatureTag : SignatureTag.t -> Buffer;
  RLP_encode : RlpItem -> Buffer;
  Buffer_from_hex : string -> Buffer;
  H160_toEncodeObject : H160.t -> RlpItem;
  H256_toEncodeObject : H256.t -> RlpItem;
  U64_toEncodeObject : U64.t -> RlpItem
}.

(** ** [AssetOutPoint] *)

Module AssetOutPointJSON.
Record t := new {
  transactionHash : string;
  index : Z;
  assetType : string;
  amount : string
}.
End AssetOutPointJSON.

Module AssetOutPoint.
Record t := new {
  transactionHash : H256.t;
  index : Z;
  assetType : H256.t;
  amount : U64.t;
  lockScriptHash : option H160.t;
  parameters : option (list Buffer)
}.

(** [fromJSON] passes four fields to the constructor: the optional two
    stay [undefined]. *)
Definition fromJSON (data : AssetOutPointJSON.t) : t :=
  new (H256.new (AssetOutPointJSON.transactionHash data))
      (AssetOutPointJSON.index data)
      (H256.new (AssetOutPointJSON.assetType data))
      (U64.ensure_string (AssetOutPointJSON.amount data))
      None
      None.

Definition toEncodeObject `{Primitives} (this : t) : RlpItem :=
  RList [ H256_toEncodeObject (transactionHash this);
          RNum (index this);
          H256_toEncodeObject (assetType this);
          U64_toEncodeObject (amount this) ].

Definition toJSON (this : t) : AssetOutPointJSON.t :=
  AssetOutPointJSON.new
    (H256.value (transactionHash this))
    (index this)
    (H256.value (assetType this))
    ("0x" ++ U64.toString16 (amount this)).
End AssetOutPoint.

(** ** Sibling classes that are not under src/ *)

Module AssetTransferInputJSON.
(** Modelled from the spec: the JSON form of an AssetTransferInput, which
    is not under src/; it mirrors the field set, the byte buffers as the
    sequences of their bytes. *)
Record t := new {
  prevOut : AssetOutPointJSON.t;
  lockScript : Buffer;
  unlockScript : Buffer
}.
End AssetTransferInputJSON.

Module AssetTransferInput.
(** Modelled from the spec: [AssetTransferInput], which is not under
    src/: [{prevOut, lockScript, unlockScript}]. *)
Record t := new {
  prevOut : AssetOutPoint.t;
  lockScript : Buffer;
  unlockScript : Buffer
}.

(** Modelled from the spec: [withoutScript()], which is not under src/:
    a copy with both script fields cleared. *)
Definition withoutScript (this : t) : t :=
  new (prevOut this) [] [].

(** Modelled from the spec: [toJSON] and [fromJSON], which are not under
    src/: field by field, the out-point through its own [toJSON] and
    [fromJSON]. *)
Definition toJSON (this : t) : AssetTransferInputJSON.t :=
  AssetTransferInputJSON.new
    (AssetOutPoint.toJSON (prevOut this)) (lockScript this) (unlockScript this).

Definition fromJSON (data : AssetTransferInputJSON.t) : t :=
  new (AssetOutPoint.fromJSON (AssetTransferInputJSON.prevOut data))
      (AssetTransferInputJSON.lockScript data)
      (AssetTransferInputJSON.unlockScript data).
End AssetTransferInput.

Module AssetMintOutputJSON.
(** Modelled from the spec: the JSON form of an AssetMintOutput, which is
    not under src/: the hash as its hexadecimal string, the amount as a
    [0x]-prefixed hexadecimal string or [null]. *)
Record t := new {
  lockScriptHash : string;
  parameters : list Buffer;
  amount : option string
}.
End AssetMintOutputJSON.

Module AssetMintOutput.
(** Modelled from the spec: [AssetMintOutput], which is not under src/:
    [{lockScriptHash, parameters, amount: U64 | null}]. *)
Record t := Build {
  lockScriptHash : H160.t;
  parameters : list Buffer;
  amount : option U64.t
}.

(** Modelled from the spec: the constructor, called on an output by the
    constructor of the transaction: a copy of the three fields. *)
Definition new (data : t) : t :=
  Build (lockScriptHash data) (parameters data) (amount data).

(** Modelled from the spec: [toJSON] and [fromJSON], which are not under
    src/. *)
Definition toJSON (this : t) : AssetMintOutputJSON.t :=
  AssetMintOutputJSON.new
    (H160.value (lockScriptHash this))
    (parameters this)
    (option_map (fun a => "0x" ++ U64.toString16 a) (amount this)).

Definition fromJSON (data : AssetMintOutputJSON.t) : t :=
  new (Build (H160.new (AssetMintOutputJSON.lockScriptHash data))
             (AssetMintOutputJSON.parameters data)
             (option_map U64.ensure_string (AssetMintOutputJSON.amount data))).
End AssetMintOutput.

Module Asset.
(** Modelled from the spec: [Asset], which is not under src/: the record
    of what [getComposedAsset] passes to its constructor. *)
Record t := new {
  assetType : H256.t;
  lockScriptHash : H160.t;
  parameters : list Buffer;
  amount : U64.t;
  transactionHash : H256.t;
  transactionOutputIndex : Z
}.
End Asset.

Module PoolEntry.
Record t := new { assetType : H256.t; amount : U64.t }.
End PoolEntry.

Module AssetScheme.
(** Modelled from the spec: [AssetScheme], which is not under src/: the
    record of what [getAssetScheme] passes to its constructor. *)
Record t := new {
  networkId : NetworkId;
  shardId : Z;
  metadata : string;
  amount : U64.t;
  approver : option PlatformAddress.t;
  administrator : option PlatformAddress.t;
  pool : list PoolEntry.t
}.
End AssetScheme.

(** Methods of the sibling classes whose behaviour the specification leaves
    open; the model is parametric in them.
    - [AssetTransferInput.toEncodeObject];
    - [Asset.createTransferInput];
    - [U64.plus], here applied to an accumulator entry that is [undefined]
      at the first input of an asset type. *)
Class Siblings := {
  AssetTransferInput_toEncodeObject : AssetTransferInput.t -> RlpItem;
  Asset_createTransferInput : Asset.t -> AssetTransferInput.t;
  U64_plus : option U64.t -> U64.t -> Error + U64.t
}.

(** ** A JavaScript object used as a map from strings

    The keys of the source are [H256] values, 64 hexadecimal digits, never
    array indices: the properties are enumerated in the order of their
    insertion. *)
Definition JsObject (V : Type) := list (string * V).

(** [{}] *)
Definition empty_object {V} : JsObject V := [].

Fixpoint obj_get {V} (k : string) (o : JsObject V) : option V :=
  match o with
  | [] => None
  | (k', v) :: o' => if String.eqb k k' then Some v else obj_get k o'
  end.

Fixpoint obj_set {V} (k : string) (v : V) (o : JsObject V) : JsObject V :=
  match o with
  | [] => [(k, v)]
  | (k', v') :: o' =>
      if String.eqb k k' then (k, v) :: o' else (k', v') :: obj_set k v o'
  end.

(** [_.toPairs] *)
Definition toPairs {V} (o : JsObject V) : list (string * V) := o.

(** ** [AssetComposeTransaction] *)

Module AssetComposeTransactionJSON.
Record data := new_data {
  networkId : NetworkId;
  shardId : Z;
  metadata : string;
  inputs : list AssetTransferInputJSON.t;
  output : AssetMintOutputJSON.t;
  approver : option string;
  administrator : option string
}.
Record t := new { type : string; data_ : data }.
End AssetComposeTransactionJSON.

(** The argument of [hashWithoutScript]; either field may be missing from
    the object the caller passes. *)
Record HashParams := mkHashParams { tag : option SignatureTag.t; index : option Z }.

(** An element handed to [addInputs], as its run-time checks see it. *)
Inductive InputArg :=
| ArgTransferInput (i : AssetTransferInput.t)   (* instanceof AssetTransferInput *)
| ArgAsset (a : Asset.t)                        (* instanceof Asset *)
| ArgOther.                                     (* neither *)

(** The first argument of [addInputs]: one element, or an array of them. *)
Inductive InputsArg :=
| One (x : InputArg)
| Many (xs : list InputArg).

Module AssetComposeTransaction.

Record t := Build {
  networkId : NetworkId;
  shardId : Z;
  metadata : string;
  approver : option PlatformAddress.t;
  administrator : option PlatformAddress.t;
  inputs : list AssetTransferInput.t;
  output : AssetMintOutput.t
}.

(** The constructor: the addresses go through [PlatformAddress.ensure], the
    output is copied by the constructor of [AssetMintOutput]. *)
Definition new (params : t) : t :=
  Build (networkId params)
        (shardId params)
        (metadata params)
        (option_map PlatformAddress.ensure (approver params))
        (option_map PlatformAddress.ensure (administrator params))
        (inputs params)
        (AssetMintOutput.new (output params)).

Definition fromJSON (obj : AssetComposeTransactionJSON.t) : t :=
  let d := AssetComposeTransactionJSON.data_ obj in
  new (Build (AssetComposeTransactionJSON.networkId d)
             (AssetComposeTransactionJSON.shardId d)
             (AssetComposeTransactionJSON.metadata d)
             (option_map PlatformAddress.ensure_string
                         (AssetComposeTransactionJSON.approver d))
             (option_map PlatformAddress.ensure_string
                         (AssetComposeTransactionJSON.administrator d))
             (map AssetTransferInput.fromJSON (AssetComposeTransactionJSON.inputs d))
             (AssetMintOutput.fromJSON (AssetComposeTransactionJSON.output d))).

Definition toJSON (this : t) : AssetComposeTransactionJSON.t :=
  AssetComposeTransactionJSON.new
    "assetCompose"
    (AssetComposeTransactionJSON.new_data
       (networkId this)
       (shardId this)
       (metadata this)
       (map AssetTransferInput.toJSON (inputs this))
       (AssetMintOutput.toJSON (output this))
       (option_map PlatformAddress.toString (approver this))
       (option_map PlatformAddress.toString (administrator this))).

Section Methods.
Context {P : Primitives} {Sib : Siblings}.

Definition toEncodeObject (this : t) : RlpItem :=
  RList [
    RNum 6;
    RStr (networkId this);
    RNum (shardId this);
    RStr (metadata this);
    match approver this with
    | Some a => RList [RStr (PlatformAddress.toString a)]
    | None => RList []
    end;
    match administrator this with
    | Some a => RList [RStr (PlatformAddress.toString a)]
    | None => RList []
    end;
    RList (map AssetTransferInput_toEncodeObject (inputs this));
    H160_toEncodeObject (AssetMintOutput.lockScriptHash (output this));
    RList (map RBuf (AssetMintOutput.parameters (output this)));
    match AssetMintOutput.amount (output this) with
    | Some a => RList [U64_toEncodeObject a]
    | None => RList []
    end
  ].

Definition rlpBytes (this : t) : Buffer :=
  RLP_encode (toEncodeObject this).

Definition hash (this : t) : H256.t :=
  H256.new (blake256 (OfBuffer (rlpBytes this))).

(** [this.inputs[index]] *)
Definition inputs_at (this : t) (i : Z) : option AssetTransferInput.t :=
  if i <? 0 then None else nth_error (inputs this) (Z.to_nat i).

Definition hashWithoutScript (this : t) (params : option HashParams)
  : Error + H256.t :=
  let tag :=
    match params with
    | Some (mkHashParams (Some tg) _) => tg
    | _ => SignatureTag.new InputAll OutputAll
    end in
  let index :=
    match params with
    | Some p => index p
    | None => None
    end in
  inputs <-
    match SignatureTag.input tag with
    | InputAll => inr (map AssetTransferInput.withoutScript (inputs this))
    | InputSingle =>
        match index with
        | None => inl MissingIndex
        | Some i =>
            match inputs_at this i with
            | Some inp => inr [AssetTransferInput.withoutScript inp]
            | None => inl TypeError
            end
        end
    | InputOther _ => inl (InvalidSignatureTag TagInput)
    end ;;
  output <-
    match SignatureTag.output tag with
    | OutputAll => inr (output this)
    | OutputIndices [] =>
        (* NOTE: An empty array is allowed only *)
        inr (AssetMintOutput.new
               (AssetMintOutput.Build
                  (H160.new "0000000000000000000000000000000000000000")
                  []
                  None))
    | _ => inl (InvalidSignatureTag TagOutput)
    end ;;
  inr (H256.new
         (blake256WithKey
            (OfBuffer
               (rlpBytes
                  (new (Build (networkId this) (shardId this) (metadata this)
                              (approver this) (administrator this)
                              inputs output))))
            (Buffer_from_hex (blake128 (OfBuffer (encodeSignatureTag tag)))))).

(** [this.inputs.push(...)] for each element in turn, until an element
    that is neither an input nor an asset throws: what was pushed before
    stays pushed. *)
Fixpoint push_each (pushed : list AssetTransferInput.t) (xs : list InputArg)
                   (index : nat) : option Error * list AssetTransferInput.t :=
  match xs with
  | [] => (None, pushed)
  | ArgTransferInput i :: xs' => push_each (pushed ++ [i]) xs' (Datatypes.S index)
  | ArgAsset a :: xs' =>
      push_each (pushed ++ [Asset_createTransferInput a]) xs' (Datatypes.S index)
  | ArgOther :: _ => (Some (InvalidInput index), pushed)
  end.

(** [addInputs] writes to the array [this.inputs] of its receiver and
    returns the receiver: the result is the outcome together with the
    receiver after the call. *)
Definition addInputs (this : t) (inputs : InputsArg) (rest : list InputArg)
  : (Error + t) * t :=
  let inputs :=
    match inputs with
    | Many xs => xs
    | One x => x :: rest
    end in
  let '(thrown, pushed) := push_each (AssetComposeTransaction.inputs this) inputs 0 in
  let this' := Build (networkId this) (shardId this) (metadata this)
                     (approver this) (administrator this)
                     pushed (output this) in
  match thrown with
  | Some e => (inl e, this')
  | None => (inr this', this')
  end.

Definition getAssetSchemeAddress (this : t) : H256.t :=
  let blake :=
    blake256WithKey
      (OfHex (H256.value (hash this)))
      [x00; x00; x00; x00; x00; x00; x00; x00;
       xff; xff; xff; xff; xff; xff; xff; xff]%byte in
  let shardPrefix := convertU16toHex (shardId this) in
  let prefix := "5300" ++ shardPrefix in
  H256.new (replace_leading (String.length prefix) prefix blake).

Definition getAssetAddress (this : t) : H256.t :=
  let blake :=
    blake256WithKey
      (OfHex (H256.value (hash this)))
      [x00; x00; x00; x00; x00; x00; x00; x00;
       x00; x00; x00; x00; x00; x00; x00; x00]%byte in
  let shardPrefix := convertU16toHex (shardId this) in
  let prefix := "4100" ++ shardPrefix in
  H256.new (replace_leading (String.length prefix) prefix blake).

Definition getComposedAsset (this : t) : Error + Asset.t :=
  let lockScriptHash := AssetMintOutput.lockScriptHash (output this) in
  let parameters := AssetMintOutput.parameters (output this) in
  let amount := AssetMintOutput.amount (output this) in
  match amount with
  | None => inl UnsupportedOperation
  | Some _ =>
      inr (Asset.new
             (getAssetSchemeAddress this)
             lockScriptHash
             parameters
             match amount with
             | None => U64.ensure U64.MAX_VALUE
             | Some a => a
             end
             (hash this)
             0)
  end.

(** The callback of [inputs.reduce] in [getAssetScheme]; a [throw] of
    [U64.plus] ends the reduction. *)
Definition sum_step (acc : Error + JsObject U64.t) (input : AssetTransferInput.t)
  : Error + JsObject U64.t :=
  acc <- acc ;;
  let assetType := AssetOutPoint.assetType (AssetTransferInput.prevOut input) in
  let assetAmount := AssetOutPoint.amount (AssetTransferInput.prevOut input) in
  v <- U64_plus (obj_get (H256.value assetType) acc) assetAmount ;;
  inr (obj_set (H256.value assetType) v acc).

Definition getAssetScheme (this : t) : Error + AssetScheme.t :=
  match AssetMintOutput.amount (output this) with
  | None => inl UnsupportedOperation
  | Some amount =>
      acc <- fold_left sum_step (inputs this) (inr empty_object) ;;
      inr (AssetScheme.new
             (networkId this)
             (shardId this)
             (metadata this)
             amount
             (approver this)
             (administrator this)
             (map (fun '(assetType, assetAmount) =>
                     PoolEntry.new (H256.ensure assetType) (U64.ensure assetAmount))
                  (toPairs acc)))
  end.

End Methods.
End AssetComposeTransaction.

(** ** Calls on a receiver

    Every public operation as a transition of its receiver: the outcome of
    the call and the receiver after it.  Only [addInputs] writes. *)

Inductive Operation :=
| Call_hash
| Call_hashWithoutScript (params : option HashParams)
| Call_toJSON
| Call_toEncodeObject
| Call_rlpBytes
| Call_getAssetScheme
| Call_getComposedAsset
| Call_getAssetSchemeAddress
| Call_getAssetAddress
| Call_addInputs (inputs : InputsArg) (rest : list InputArg).

Inductive Value :=
| OfH256 (h : H256.t)
| OfJSON (j : AssetComposeTransactionJSON.t)
| OfRlpItem (r : RlpItem)
| OfBytes (b : Buffer)
| OfAssetScheme (s : AssetScheme.t)
| OfAsset (a : Asset.t)
| OfTransaction (t : AssetComposeTransaction.t).

Definition returning {A} (f : A -> Value) (r : Error + A) : Error + Value :=
  match r with
  | inl e => inl e
  | inr a => inr (f a)
  end.

Definition call `{Primitives} `{Siblings}
  (op : Operation) (this : AssetComposeTransaction.t)
  : (Error + Value) * AssetComposeTransaction.t :=
  match op with
  | Call_hash =>
      (inr (OfH256 (AssetComposeTransaction.hash this)), this)
  | Call_hashWithoutScript params =>
      (returning OfH256 (AssetComposeTransaction.hashWithoutScript this params), this)
  | Call_toJSON =>
      (inr (OfJSON (AssetComposeTransaction.toJSON this)), this)
  | Call_toEncodeObject =>
      (inr (OfRlpItem (AssetComposeTransaction.toEncodeObject this)), this)
  | Call_rlpBytes =>
      (inr (OfBytes (AssetComposeTransaction.rlpBytes this)), this)
  | Call_getAssetScheme =>
      (returning OfAssetScheme (AssetComposeTransaction.getAssetScheme this), this)
  | Call_getComposedAsset =>
      (returning OfAsset (AssetComposeTransaction.getComposedAsset this), this)
  | Call_getAssetSchemeAddress =>
      (inr (OfH256 (AssetComposeTransaction.getAssetSchemeAddress this)), this)
  | Call_getAssetAddress =>
      (inr (OfH256 (AssetComposeTransaction.getAssetAddress this)), this)
  | Call_addInputs inputs rest =>
      let '(r, this') := AssetComposeTransaction.addInputs this inputs rest in
      (returning OfTransaction r, this')
  end.

(** ** An instance of the external functions, for the examples

    The digests are fixed strings of the right length, the keyed one chosen
    by a byte of the key; the encoder keeps nothing; [U64.plus] is the
    checked addition of two amounts, and throws on an operand that is
    [undefined], which it cannot turn into a [U64]. *)

Definition hex_of_bytes (b : Buffer) : string :=
  String.concat "" (map (fun x => hex_byte (Z.of_N (Byte.to_N x))) b).

Definition sample_keyed_hash (key : Buffer) : string :=
  match nth_error key 8 with
  | Some xff%byte => hex_of_bytes (repeat xc3%byte 32)
  | _ => hex_of_bytes (repeat x5a%byte 32)
  end.

Definition sample_primitives : Primitives := {|
  blake256 := fun _ => hex_of_bytes (repeat x1f%byte 32);
  blake256WithKey := fun _ key => sample_keyed_hash key;
  blake128 := fun _ => hex_of_bytes (repeat x00%byte 16);
  encodeSignatureTag := fun _ => [];
  RLP_encode := fun _ => [];
  Buffer_from_hex := fun _ => [];
  H160_toEncodeObject := fun h => RStr ("0x" ++ H160.value h);
  H256_toEncodeObject := fun h => RStr ("0x" ++ H256.value h);
  U64_toEncodeObject := fun a => RStr ("0x" ++ U64.toString16 a)
|}.

Definition sample_siblings : Siblings := {|
  AssetTransferInput_toEncodeObject := fun i =>
    RList [ @AssetOutPoint.toEncodeObject sample_primitives (AssetTransferInput.prevOut i);
            RBuf (AssetTransferInput.lockScript i);
            RBuf (AssetTransferInput.unlockScript i) ];
  Asset_createTransferInput := fun a =>
    AssetTransferInput.new
      (AssetOutPoint.new (Asset.transactionHash a) (Asset.transactionOutputIndex a)
                         (Asset.assetType a) (Asset.amount a)
                         (Some (Asset.lockScriptHash a)) (Some (Asset.parameters a)))
      [] [];
  U64_plus := fun a b =>
    match a with
    | None => inl InvalidFieldValue
    | Some a =>
        let s := (U64.value a + U64.value b)%N in
        if (s <=? U64.value U64.MAX_VALUE)%N then inr (U64.new s) else inl IntegerOverflow
    end
|}.

Definition sample_hash : H256.t :=
  H256.new "00000000000000000000000000000000000000000000000000000000000000aa".

Definition sample_type : H256.t :=
  H256.new "5300000000000000000000000000000000000000000000000000000000000001".

Definition sample_input (amount : N) : AssetTransferInput.t :=
  AssetTransferInput.new
    (AssetOutPoint.new sample_hash 0 sample_type (U64.new amount) None None)
    [x01; x02]%byte [x03]%byte.

Definition sample_output : AssetMintOutput.t :=
  AssetMintOutput.Build (H160.new "8cf03a38366586bfe66d8ada3c3b355de3273b86")
                        [[x0a]%byte] (Some (U64.new 1)).

Definition sample_out_point_with_lock : AssetOutPoint.t :=
  AssetOutPoint.new sample_hash 0 sample_type (U64.new 255)
                    (Some (H160.new "8cf03a38366586bfe66d8ada3c3b355de3273b86"))
                    (Some []).

Definition sample_transaction_at (shardId : Z) : AssetComposeTransaction.t :=
  AssetComposeTransaction.Build
    "tc" shardId "composed"
    (Some (PlatformAddress.fromString "tccqzn9jjm3j6qg69smd7cn0eup4w7z2yu9my9a2k78"))
    None [sample_input 30; sample_input 70] sample_output.

Definition sample_transaction : AssetComposeTransaction.t :=
  sample_transaction_at 258.

(** The same with a null output amount. *)
Definition sample_transaction_without_amount : AssetComposeTransaction.t :=
  AssetComposeTransaction.Build
    "tc" 258 "composed" None None [sample_input 30; sample_input 70]
    (AssetMintOutput.Build (H160.new "8cf03a38366586bfe66d8ada3c3b355de3273b86")
                           [] None).

(** ** The reading of the specification for the JSON round trip *)

(** An out-point without its optional fields, as [fromJSON] builds it. *)
Definition without_optional (x : AssetOutPoint.t) : AssetOutPoint.t :=
  AssetOutPoint.new (AssetOutPoint.transactionHash x) (AssetOutPoint.index x)
                    (AssetOutPoint.assetType x) (AssetOutPoint.amount x) None None.

Definition input_without_optional (i : AssetTransferInput.t) : AssetTransferInput.t :=
  AssetTransferInput.new (without_optional (AssetTransferInput.prevOut i))
                         (AssetTransferInput.lockScript i)
                         (AssetTransferInput.unlockScript i).

Definition no_optional (x : AssetOutPoint.t) : Prop :=
  AssetOutPoint.lockScriptHash x = None /\ AssetOutPoint.parameters x = None.

(** ** The reading of the specification for [addInputs] *)

(** The elements handed to [addInputs]. *)
Definition given (inputs : InputsArg) (rest : list InputArg) : list InputArg :=
  match inputs with
  | Many xs => xs
  | One x => x :: rest
  end.

(** The inputs appended to the receiver: the given elements in their
    order, an asset through [createTransferInput], up to the first element
    that is neither an input nor an asset. *)
Fixpoint appended `{Siblings} (xs : list InputArg) : list AssetTransferInput.t :=
  match xs with
  | ArgTransferInput i :: xs' => i :: appended xs'
  | ArgAsset a :: xs' => Asset_createTransferInput a :: appended xs'
  | _ => []
  end.

(** The position of the first element that is neither. *)
Fixpoint rejected (xs : list InputArg) (from : nat) : option nat :=
  match xs with
  | [] => None
  | ArgOther :: _ => Some from
  | _ :: xs' => rejected xs' (Datatypes.S from)
  end.

(** ** The reading of the specification for [hashWithoutScript] *)

(** The placeholder output: the all-zero 160-bit lock-script hash, no
    parameters, no amount. *)
Definition placeholder_output : AssetMintOutput.t :=
  AssetMintOutput.Build (H160.new (string_of_list_ascii (repeat "0"%char 40))) [] None.

(** The transaction of the same kind and the same scalar fields, with the
    given inputs and output. *)
Definition rebuilt (this : AssetComposeTransaction.t)
  (inputs : list AssetTransferInput.t) (output : AssetMintOutput.t)
  : AssetComposeTransaction.t :=
  AssetComposeTransaction.Build
    (AssetComposeTransaction.networkId this)
    (AssetComposeTransaction.shardId this)
    (AssetComposeTransaction.metadata this)
    (AssetComposeTransaction.approver this)
    (AssetComposeTransaction.administrator this)
    inputs output.

(** [hash256WithKey(e, k)]: [e] the canonical encoding of the rebuilt
    transaction, [k] the 128-bit hash of the encoded tag. *)
Definition signing_hash `{Primitives} `{Siblings}
  (this : AssetComposeTransaction.t) (tg : SignatureTag.t)
  (inputs : list AssetTransferInput.t) (output : AssetMintOutput.t) : H256.t :=
  let e := RLP_encode (AssetComposeTransaction.toEncodeObject (rebuilt this inputs output)) in
  let k := Buffer_from_hex (blake128 (OfBuffer (encodeSignatureTag tg))) in
  H256.new (blake256WithKey (OfBuffer e) k).

(** The inputs an accepted tag selects: all of them, or the one at a valid
    index; each without its scripts. *)
Inductive selects_inputs (this : AssetComposeTransaction.t)
  : TagInputValue -> option Z -> list AssetTransferInput.t -> Prop :=
| select_all (idx : option Z) :
    selects_inputs this InputAll idx
      (map AssetTransferInput.withoutScript (AssetComposeTransaction.inputs this))
| select_single (i : Z) (inp : AssetTransferInput.t) :
    0 <= i < Z.of_nat (List.length (AssetComposeTransaction.inputs this)) ->
    nth_error (AssetComposeTransaction.inputs this) (Z.to_nat i) = Some inp ->
    selects_inputs this InputSingle (Some i) [AssetTransferInput.withoutScript inp].

(** The output an accepted tag selects: the real one, or the placeholder. *)
Inductive selects_output (this : AssetComposeTransaction.t)
  : TagOutputValue -> AssetMintOutput.t -> Prop :=
| select_real : selects_output this OutputAll (AssetComposeTransaction.output this)
| select_placeholder : selects_output this (OutputIndices []) placeholder_output.

(** An optional field on the wire: a list of no or one element. *)
Definition optional {A} (f : A -> RlpItem) (o : option A) : RlpItem :=
  RList (match o with Some a => [f a] | None => [] end).

Definition sample_params (i : TagInputValue) (o : TagOutputValue) (idx : option Z)
  : option HashParams :=
  Some (mkHashParams (Some (SignatureTag.new i o)) idx).

(** The same call made twice in a row on one receiver: the two outcomes. *)
Definition call_twice `{Primitives} `{Siblings}
  (op : Operation) (this : AssetComposeTransaction.t)
  : (Error + Value) * (Error + Value) :=
  let '(r1, this1) := call op this in
  let '(r2, _) := call op this1 in
  (r1, r2).

(** The values of a byte. *)
Definition byte_values : list Z := map Z.of_nat (seq 0 256).

(** ** Further sample values *)

(** The input of [sample_input] with other scripts. *)
Definition sample_input_rescripted (amount : N) : AssetTransferInput.t :=
  AssetTransferInput.new
    (AssetOutPoint.new sample_hash 0 sample_type (U64.new amount) None None)
    [x09]%byte [x08; x07]%byte.

(** Reading a string of hexadecimal digits as a number. *)
Definition parse_hex (s : string) : Z := Z.of_N (HexString.Raw.to_N s 0).

(** The values of a hexadecimal digit. *)
Definition digit_values : list Z := map Z.of_nat (seq 0 16).

(** ** [P2PKHBurn] ([src/key/P2PKHBurn.ts]) *)

(** [Buffer.from(array)]: each number is truncated to a byte. *)
Definition byte_of_number (z : Z) : byte :=
  match Byte.of_N (Z.to_N (z mod 256)) with
  | Some b => b
  | None => x00%byte
  end.

Definition Buffer_from_array (l : list Z) : Buffer := map byte_of_number l.

(** The numbers a spread [...buffer] yields. *)
Definition byte_to_number (b : byte) : Z := Z.of_N (Byte.to_N b).

Definition numbers (b : Buffer) : list Z := map byte_to_number b.

(** The opcodes of [core/Script], which is not under src/: the model is
    parametric in their values. *)
Class Opcodes := { PUSHB : Z; CHKSIG : Z; JZ : Z; BURN : Z }.

(** The key store, an asynchronous collaborator: what each of its promises
    settles to, a rejection with its reason or a value. *)
Class KeyStore := {
  getPublicKey : string -> option string -> string + option string;
  sign : string -> string -> option string -> string + string
}.

(** What was asked of the key store during a call, in order. *)
Inductive KeyStoreCall :=
| AskedPublicKey (key : string) (passphrase : option string)
| AskedSignature (key message : string) (passphrase : option string).

(** How the promise of [createUnlockScript] is rejected. *)
Inductive UnlockError :=
| Rejected (reason : string)          (* a rejection of the key store, passed on *)
| UnableToGetKey (key : string).      (* "Unable to get original key from the given public key hash: ..." *)

Record UnlockOptions := mkUnlockOptions {
  passphrase : option string;
  signatureTag : option SignatureTag.t
}.

Module P2PKHBurn.
Section Methods.
Context {P : Primitives} {O : Opcodes} {K : KeyStore}.

Definition getLockScript : Buffer :=
  Buffer_from_array [CHKSIG; JZ; 255; BURN].

Definition getLockScriptHash : H160.t :=
  H160.new "8cf03a38366586bfe66d8ada3c3b355de3273b86".

(** [!publicKey]: [null] and the empty string. *)
Definition is_falsy (publicKey : option string) : bool :=
  match publicKey with
  | None => true
  | Some s => String.eqb s ""
  end.

(** The settled outcome of the promise, with what the key store was asked
    on the way. *)
Definition createUnlockScript (publicKeyHash : string) (txhash : H256.t)
  (options : option UnlockOptions) : (UnlockError + Buffer) * list KeyStoreCall :=
  let passphrase :=
    match options with
    | Some o => passphrase o
    | None => None
    end in
  let signatureTag :=
    match options with
    | Some (mkUnlockOptions _ (Some tg)) => tg
    | _ => SignatureTag.new InputAll OutputAll
    end in
  let asked_key := AskedPublicKey publicKeyHash passphrase in
  match getPublicKey publicKeyHash passphrase with
  | inl reason => (inl (Rejected reason), [asked_key])
  | inr publicKey =>
      if is_falsy publicKey then (inl (UnableToGetKey publicKeyHash), [asked_key])
      else
        let asked_signature :=
          AskedSignature publicKeyHash (H256.value txhash) passphrase in
        match sign publicKeyHash (H256.value txhash) passphrase with
        | inl reason => (inl (Rejected reason), [asked_key; asked_signature])
        | inr signature =>
            let encodedTag := encodeSignatureTag signatureTag in
            (inr (Buffer_from_array
                    ([PUSHB; 65] ++ numbers (Buffer_from_hex signature)
                     ++ [PUSHB; Z.of_nat (List.length encodedTag)]
                     ++ numbers encodedTag)%list),
             [asked_key; asked_signature])
        end
  end.

End Methods.
End P2PKHBurn.

(** Reading one pushed item off a script: the opcode, a length byte, and
    as many bytes; the item and what follows it. *)
Definition read_pushed (script : Buffer) : option (Buffer * Buffer) :=
  match script with
  | _ :: len :: rest =>
      let n := N.to_nat (Byte.to_N len) in
      if (n <=? List.length rest)%nat then Some (firstn n rest, skipn n rest) else None
  | _ => None
  end.

(** A key store for the examples: it knows one key. *)
Definition sample_opcodes : Opcodes :=
  {| PUSHB := 50; CHKSIG := 128; JZ := 66; BURN := 181 |}.

Definition sample_key_store : KeyStore := {|
  getPublicKey := fun key _ =>
    if String.eqb key "known" then inr (Some "02aa") else inr None;
  sign := fun _ _ _ => inr "00"
|}.

(** Primitives for the examples of [P2PKHBurn]: a signature of 65 bytes
    and a tag of one byte. *)
Definition sample_signing_primitives : Primitives := {|
  blake256 := @blake256 sample_primitives;
  blake256WithKey := @blake256WithKey sample_primitives;
  blake128 := @blake128 sample_primitives;
  encodeSignatureTag := fun _ => [x03]%byte;
  RLP_encode := @RLP_encode sample_primitives;
  Buffer_from_hex := fun _ => repeat x1b%byte 65;
  H160_toEncodeObject := @H160_toEncodeObject sample_primitives;
  H256_toEncodeObject := @H256_toEncodeObject sample_primitives;
  U64_toEncodeObject := @U64_toEncodeObject sample_primitives
|}.

(** * Properties *)

(** ** Arithmetic of [convertU16toHex] *)

Lemma ToInt32_congruent (x : Z) : exists q, ToInt32 x = x + 2 ^ 32 * q.
Proof.
  unfold ToInt32.
  exists (- ((x + 2 ^ 31) / 2 ^ 32)).
  pose proof (Z.div_mod (x + 2 ^ 31) (2 ^ 32)) as E.
  lia.
Qed.

Lemma ToInt32_255 : ToInt32 255 = 255.
Proof. reflexivity. Qed.

Lemma js_and_255 (x : Z) : js_and x 255 = x mod 256.
Proof.
  unfold js_and. rewrite ToInt32_255.
  change 255 with (Z.ones 8).
  rewrite Z.land_ones by lia.
  destruct (ToInt32_congruent x) as [q ->].
  change (2 ^ 8) with 256.
  replace (x + 2 ^ 32 * q) with (x + (q * 2 ^ 24) * 256) by lia.
  apply Z_mod_plus_full.
Qed.

Lemma js_sar_8 (x : Z) : (js_sar x 8) mod 256 = (x / 256) mod 256.
Proof.
  unfold js_sar.
  change (8 mod 32) with 8.
  rewrite Z.shiftr_div_pow2 by lia.
  destruct (ToInt32_congruent x) as [q ->].
  change (2 ^ 8) with 256.
  replace (x + 2 ^ 32 * q) with (x + (q * 2 ^ 24) * 256) by lia.
  rewrite Z.div_add by lia.
  replace (x / 256 + q * 2 ^ 24) with (x / 256 + (q * 2 ^ 16) * 256) by lia.
  apply Z_mod_plus_full.
Qed.

Lemma hi_byte (x : Z) : js_and (js_sar x 8) 255 = (x mod 2 ^ 16) / 256.
Proof.
  rewrite js_and_255, js_sar_8.
  change (2 ^ 16) with (256 * 256).
  rewrite Z.rem_mul_r by lia.
  pose proof (Z.mod_pos_bound x 256).
  pose proof (Z.mod_pos_bound (x / 256) 256).
  apply Z.div_unique with (r := x mod 256); lia.
Qed.

Lemma lo_byte (x : Z) : js_and x 255 = (x mod 2 ^ 16) mod 256.
Proof.
  rewrite js_and_255.
  change (2 ^ 16) with (256 * 256).
  rewrite Z.rem_mul_r by lia.
  rewrite (Z.mul_comm 256), Z_mod_plus_full.
  now rewrite Z.mod_mod by lia.
Qed.

Lemma in_byte_values (b : Z) : 0 <= b < 256 -> In b byte_values.
Proof.
  intros Hb. unfold byte_values.
  apply in_map_iff. exists (Z.to_nat b). split; [lia|].
  apply in_seq. lia.
Qed.

Lemma padded_byte (b : Z) :
  0 <= b < 256 -> slice_last 2 ("0" ++ Number_toString16 b) = hex_byte b.
Proof.
  intros Hb.
  assert (A : forallb (fun b => String.eqb (slice_last 2 ("0" ++ Number_toString16 b))
                                           (hex_byte b)) byte_values = true)
    by (vm_compute; reflexivity).
  rewrite forallb_forall in A.
  apply String.eqb_eq, A, in_byte_values, Hb.
Qed.

Lemma convertU16toHex_bytes (id : Z) :
  convertU16toHex id
  = hex_byte (js_and (js_sar id 8) 255) ++ hex_byte (js_and id 255).
Proof.
  unfold convertU16toHex.
  rewrite !padded_byte; [reflexivity | |]; rewrite js_and_255; apply Z.mod_pos_bound; lia.
Qed.

Lemma convertU16toHex_u16 (id : Z) :
  convertU16toHex id = hex_u16_be (id mod 2 ^ 16).
Proof.
  rewrite convertU16toHex_bytes, hi_byte, lo_byte. reflexivity.
Qed.

Lemma convertU16toHex_length (id : Z) : String.length (convertU16toHex id) = 4%nat.
Proof. rewrite convertU16toHex_bytes. reflexivity. Qed.

(** ** Strings *)

Lemma substring_skip (a s : string) (n m : nat) :
  substring (String.length a + n) m (a ++ s) = substring n m s.
Proof. induction a as [|c a IH]; simpl; auto. Qed.

Lemma substring_take (b c : string) :
  substring 0 (String.length b) (b ++ c) = b.
Proof.
  induction b as [|x b IH]; simpl.
  - now destruct c.
  - now rewrite IH.
Qed.

Lemma substring_chars (n : nat) (s : string) :
  list_ascii_of_string (substring 0 n s) = firstn n (list_ascii_of_string s).
Proof.
  revert n. induction s as [|c s IH]; intros [|n]; simpl; auto.
  now rewrite IH.
Qed.

Lemma forallb_firstn {A} (p : A -> bool) (n : nat) (l : list A) :
  forallb p l = true -> forallb p (firstn n l) = true.
Proof.
  revert n. induction l as [|x l IH]; intros [|n]; simpl; auto.
  intros E. apply andb_true_iff in E as [-> E]. simpl. auto.
Qed.

Lemma forallb_impl {A} (p q : A -> bool) (l : list A) :
  (forall x, p x = true -> q x = true) ->
  forallb p l = true -> forallb q l = true.
Proof.
  intros I. induction l as [|x l IH]; simpl; auto.
  intros E. apply andb_true_iff in E as [E1 E2].
  now rewrite (I _ E1), IH.
Qed.

Lemma hex_digit_inside_line (c : ascii) :
  is_hex_digit c = true -> negb (is_line_terminator c) = true.
Proof.
  destruct c as [[] [] [] [] [] [] [] []]; vm_compute; congruence.
Qed.

Lemma replace_leading_digest (prefix s : string) :
  is_hex_digest 64 s = true ->
  String.length prefix = 8%nat ->
  replace_leading (String.length prefix) prefix s = prefix ++ substring 8 56 s.
Proof.
  unfold is_hex_digest, replace_leading.
  intros D ->. apply andb_true_iff in D as [L D].
  apply Nat.eqb_eq in L. rewrite L. simpl Nat.leb. simpl Nat.sub.
  rewrite substring_chars, (forallb_firstn _ 8).
  - reflexivity.
  - revert D. apply forallb_impl, hex_digit_inside_line.
Qed.

Lemma prefix_length (marker : string) (id : Z) :
  String.length marker = 4%nat ->
  String.length (marker ++ convertU16toHex id) = 8%nat.
Proof.
  intros L.
  rewrite convertU16toHex_bytes.
  do 5 (destruct marker as [|? marker]; try discriminate L).
  reflexivity.
Qed.

(** ** Addresses *)

Section Addresses.
Context {P : Primitives} {Sib : Siblings}.
Import AssetComposeTransaction.

Hypothesis keyed_digest :
  forall d k, is_hex_digest 64 (blake256WithKey d k) = true.

Lemma getAssetSchemeAddress_value (this : t) :
  H256.value (getAssetSchemeAddress this)
  = "5300" ++ convertU16toHex (shardId this)
    ++ substring 8 56
         (blake256WithKey (OfHex (H256.value (hash this)))
                          (repeat x00 8 ++ repeat xff 8)%byte%list).
Proof.
  unfold getAssetSchemeAddress. cbv zeta. cbn [H256.value].
  rewrite replace_leading_digest.
  - reflexivity.
  - apply keyed_digest.
  - now apply (prefix_length "5300").
Qed.

Lemma getAssetAddress_value (this : t) :
  H256.value (getAssetAddress this)
  = "4100" ++ convertU16toHex (shardId this)
    ++ substring 8 56
         (blake256WithKey (OfHex (H256.value (hash this))) (repeat x00%byte 16)).
Proof.
  unfold getAssetAddress. cbv zeta. cbn [H256.value].
  rewrite replace_leading_digest.
  - reflexivity.
  - apply keyed_digest.
  - now apply (prefix_length "4100").
Qed.

End Addresses.

Lemma sample_keyed_digest (d : Data) (k : Buffer) :
  is_hex_digest 64 (@blake256WithKey sample_primitives d k) = true.
Proof.
  cbv [blake256WithKey sample_primitives sample_keyed_hash].
  destruct (nth_error k 8) as [[]|]; reflexivity.
Defined.

(** C2. Each address is the keyed hash of the transaction hash, the scheme
    address under the key 00*8 ff*8 and the asset address under the
    all-zero key, with its leading 8 hexadecimal digits overwritten by
    "5300" (resp. "4100") followed by the big-endian 16-bit shard id and
    its other 56 digits unchanged; the two addresses differ, and a second
    call returns what the first returned.  The keyed hash is taken to
    return a digest of 64 hexadecimal digits. *)
Theorem address_derivation {P : Primitives} {Sib : Siblings}
  (this : AssetComposeTransaction.t) :
  (forall d k, is_hex_digest 64 (blake256WithKey d k) = true) ->
  let txhash := OfHex (H256.value (AssetComposeTransaction.hash this)) in
  let shardPrefix := hex_u16_be (AssetComposeTransaction.shardId this mod 2 ^ 16) in
  let scheme :=
    H256.new ("5300" ++ shardPrefix
              ++ substring 8 56
                   (blake256WithKey txhash (repeat x00 8 ++ repeat xff 8)%byte%list)) in
  let asset :=
    H256.new ("4100" ++ shardPrefix
              ++ substring 8 56 (blake256WithKey txhash (repeat x00%byte 16))) in
  AssetComposeTransaction.getAssetSchemeAddress this = scheme
  /\ AssetComposeTransaction.getAssetAddress this = asset
  /\ AssetComposeTransaction.getAssetSchemeAddress this
     <> AssetComposeTransaction.getAssetAddress this
  /\ call_twice Call_getAssetSchemeAddress this = (inr (OfH256 scheme), inr (OfH256 scheme))
  /\ call_twice Call_getAssetAddress this = (inr (OfH256 asset), inr (OfH256 asset)).
Proof.
  intros D txhash shardPrefix scheme asset.
  assert (E1 : AssetComposeTransaction.getAssetSchemeAddress this = scheme).
  { pose proof (getAssetSchemeAddress_value D this) as E.
    destruct (AssetComposeTransaction.getAssetSchemeAddress this) as [v].
    simpl in E. subst v. unfold scheme, shardPrefix, txhash.
    now rewrite <- convertU16toHex_u16. }
  assert (E2 : AssetComposeTransaction.getAssetAddress this = asset).
  { pose proof (getAssetAddress_value D this) as E.
    destruct (AssetComposeTransaction.getAssetAddress this) as [v].
    simpl in E. subst v. unfold asset, shardPrefix, txhash.
    now rewrite <- convertU16toHex_u16. }
  repeat split.
  - exact E1.
  - exact E2.
  - rewrite E1, E2. unfold scheme, asset. simpl. intros A. discriminate A.
  - unfold call_twice. simpl. now rewrite E1.
  - unfold call_twice. simpl. now rewrite E2.
Qed.

Lemma address_derivation_witness :
  (forall d k, is_hex_digest 64 (@blake256WithKey sample_primitives d k) = true)
  /\ @AssetComposeTransaction.getAssetSchemeAddress
       sample_primitives sample_siblings sample_transaction
     = H256.new "53000102c3c3c3c3c3c3c3c3c3c3c3c3c3c3c3c3c3c3c3c3c3c3c3c3c3c3c3c3"
  /\ @AssetComposeTransaction.getAssetAddress
       sample_primitives sample_siblings sample_transaction
     = H256.new "410001025a5a5a5a5a5a5a5a5a5a5a5a5a5a5a5a5a5a5a5a5a5a5a5a5a5a5a5a".
Proof.
  split; [exact sample_keyed_digest|].
  destruct (@address_derivation sample_primitives sample_siblings
              sample_transaction sample_keyed_digest) as (E1 & E2 & _).
  split; [exact E1 | exact E2].
Defined.

(** C10. The four digits of the shard prefix are the big-endian
    hexadecimal form of [shardId mod 2^16], that is the two bytes
    [(shardId >> 8) & 0xff] and [shardId & 0xff]; they are the digits 4 to 7
    of both addresses; no shard id is rejected, and two shard ids with the
    same low 16 bits give the same prefix. *)
Theorem shard_prefix_low_16_bits {P : Primitives} {Sib : Siblings}
  (this : AssetComposeTransaction.t) :
  (forall d k, is_hex_digest 64 (blake256WithKey d k) = true) ->
  let id := AssetComposeTransaction.shardId this in
  convertU16toHex id = hex_u16_be (id mod 2 ^ 16)
  /\ convertU16toHex id
     = hex_byte (js_and (js_sar id 8) 255) ++ hex_byte (js_and id 255)
  /\ js_and (js_sar id 8) 255 = (id / 2 ^ 8) mod 2 ^ 8
  /\ js_and id 255 = id mod 2 ^ 8
  /\ substring 4 4 (H256.value (AssetComposeTransaction.getAssetSchemeAddress this))
     = convertU16toHex id
  /\ substring 4 4 (H256.value (AssetComposeTransaction.getAssetAddress this))
     = convertU16toHex id
  /\ (forall id', id' mod 2 ^ 16 = id mod 2 ^ 16 ->
      convertU16toHex id' = convertU16toHex id).
Proof.
  intros D id.
  assert (L : String.length (convertU16toHex id) = 4%nat)
    by apply convertU16toHex_length.
  repeat split.
  - apply convertU16toHex_u16.
  - apply convertU16toHex_bytes.
  - now rewrite js_and_255, js_sar_8.
  - apply js_and_255.
  - rewrite (getAssetSchemeAddress_value D).
    change 4%nat with (String.length "5300" + 0)%nat at 1.
    rewrite substring_skip, <- L. apply substring_take.
  - rewrite (getAssetAddress_value D).
    change 4%nat with (String.length "4100" + 0)%nat at 1.
    rewrite substring_skip, <- L. apply substring_take.
  - intros id' E. now rewrite !convertU16toHex_u16, E.
Qed.

Lemma shard_prefix_low_16_bits_witness :
  (forall d k, is_hex_digest 64 (@blake256WithKey sample_primitives d k) = true)
  /\ convertU16toHex 65794 = "0102"
  /\ substring 4 4
       (H256.value (@AssetComposeTransaction.getAssetSchemeAddress
                      sample_primitives sample_siblings (sample_transaction_at 65794)))
     = convertU16toHex 65794.
Proof.
  split; [exact sample_keyed_digest|].
  destruct (@shard_prefix_low_16_bits sample_primitives sample_siblings
              (sample_transaction_at 65794) sample_keyed_digest)
    as (E1 & _ & _ & _ & E3 & _).
  split; [exact E1 | exact E3].
Defined.

(** ** The signing hash *)

Lemma new_same (p : AssetComposeTransaction.t) : AssetComposeTransaction.new p = p.
Proof.
  destruct p as [n s m [a|] [b|] i [l ps am]]; reflexivity.
Qed.

Section SigningHash.
Context {P : Primitives} {Sib : Siblings}.
Import AssetComposeTransaction.

Lemma inputs_at_valid (this : t) (i : Z) (inp : AssetTransferInput.t) :
  0 <= i -> nth_error (inputs this) (Z.to_nat i) = Some inp ->
  inputs_at this i = Some inp.
Proof.
  intros Hi E. unfold inputs_at.
  destruct (Z.ltb_spec i 0); [lia | exact E].
Qed.

Lemma inputs_at_outside (this : t) (i : Z) :
  i < 0 \/ Z.of_nat (List.length (inputs this)) <= i ->
  inputs_at this i = None.
Proof.
  intros Hi. unfold inputs_at.
  destruct (Z.ltb_spec i 0); [reflexivity|].
  apply nth_error_None. lia.
Qed.

(** The body of [hashWithoutScript] once the inputs are selected. *)
Lemma hashWithoutScript_selected (this : t) (tg : SignatureTag.t) (idx : option Z)
  (ins : list AssetTransferInput.t) :
  selects_inputs this (SignatureTag.input tg) idx ins ->
  hashWithoutScript this (Some (mkHashParams (Some tg) idx))
  = match SignatureTag.output tg with
    | OutputAll => inr (signing_hash this tg ins (output this))
    | OutputIndices [] => inr (signing_hash this tg ins placeholder_output)
    | _ => inl (InvalidSignatureTag TagOutput)
    end.
Proof.
  intros Hs. unfold hashWithoutScript, signing_hash, rebuilt, rlpBytes.
  cbn [index]. destruct tg as [ti to]. cbn [SignatureTag.input SignatureTag.output] in *.
  inversion Hs as [idx' | i inp Hi E]; subst.
  - destruct to as [|[|z l]|v]; cbn [bind]; try reflexivity;
      now rewrite new_same.
  - rewrite (inputs_at_valid this i inp) by (lia || exact E).
    destruct to as [|[|z l]|v]; cbn [bind]; try reflexivity;
      now rewrite new_same.
Qed.

End SigningHash.

(** C1. For an accepted tag, [hashWithoutScript] returns the keyed hash of
    the canonical encoding of the transaction rebuilt with the same scalar
    fields and the inputs and output the tag selects, under the key
    [hash128(encodeSignatureTag(tag))]; without parameters, or without a
    tag, the tag is [{input: "all", output: "all"}]. *)
Theorem hashWithoutScript_keyed_hash {P : Primitives} {Sib : Siblings}
  (this : AssetComposeTransaction.t) (tg : SignatureTag.t) (idx : option Z)
  (ins : list AssetTransferInput.t) (out : AssetMintOutput.t) :
  selects_inputs this (SignatureTag.input tg) idx ins ->
  selects_output this (SignatureTag.output tg) out ->
  let default := SignatureTag.new InputAll OutputAll in
  AssetComposeTransaction.hashWithoutScript this (Some (mkHashParams (Some tg) idx))
  = inr (H256.new
           (blake256WithKey
              (OfBuffer (RLP_encode (AssetComposeTransaction.toEncodeObject
                                       (rebuilt this ins out))))
              (Buffer_from_hex (blake128 (OfBuffer (encodeSignatureTag tg))))))
  /\ AssetComposeTransaction.hashWithoutScript this None
     = AssetComposeTransaction.hashWithoutScript this
         (Some (mkHashParams (Some default) None))
  /\ AssetComposeTransaction.hashWithoutScript this (Some (mkHashParams None idx))
     = AssetComposeTransaction.hashWithoutScript this
         (Some (mkHashParams (Some default) None)).
Proof.
  intros Hi Ho default. split; [|split; reflexivity].
  rewrite (hashWithoutScript_selected this tg idx ins Hi).
  inversion Ho as [E | E]; reflexivity.
Qed.

Lemma hashWithoutScript_keyed_hash_witness :
  selects_inputs sample_transaction InputSingle (Some 1)
    [AssetTransferInput.withoutScript (sample_input 70)]
  /\ selects_output sample_transaction (OutputIndices []) placeholder_output
  /\ @AssetComposeTransaction.hashWithoutScript sample_primitives sample_siblings
       sample_transaction (sample_params InputSingle (OutputIndices []) (Some 1))
     = inr (@signing_hash sample_primitives sample_siblings sample_transaction
              (SignatureTag.new InputSingle (OutputIndices []))
              [AssetTransferInput.withoutScript (sample_input 70)]
              placeholder_output).
Proof.
  assert (Hi : selects_inputs sample_transaction InputSingle (Some 1)
                 [AssetTransferInput.withoutScript (sample_input 70)]).
  { apply select_single; [simpl; lia | reflexivity]. }
  assert (Ho : selects_output sample_transaction (OutputIndices []) placeholder_output)
    by constructor.
  split; [exact Hi|]. split; [exact Ho|].
  exact (proj1 (@hashWithoutScript_keyed_hash sample_primitives sample_siblings
                  sample_transaction
                  (SignatureTag.new InputSingle (OutputIndices [])) (Some 1)
                  _ _ Hi Ho)).
Defined.

(** C3, as the source has it.  With [tag.input = "single"] a missing index
    raises MissingIndex; an index out of range is not reported as such:
    [inputs[index]] is [undefined] and the call fails with the runtime's
    TypeError; with a valid index the rebuilt transaction has the one input
    [inputs[index]], without its scripts, and no other: the hash is the
    same whatever the other inputs are. *)
Theorem single_input_selection {P : Primitives} {Sib : Siblings}
  (this : AssetComposeTransaction.t) (tg : SignatureTag.t) :
  SignatureTag.input tg = InputSingle ->
  let n := Z.of_nat (List.length (AssetComposeTransaction.inputs this)) in
  AssetComposeTransaction.hashWithoutScript this (Some (mkHashParams (Some tg) None))
  = inl MissingIndex
  /\ (forall i, i < 0 \/ n <= i ->
        AssetComposeTransaction.hashWithoutScript this
          (Some (mkHashParams (Some tg) (Some i)))
        = inl TypeError)
  /\ (forall i out, 0 <= i < n ->
        selects_output this (SignatureTag.output tg) out ->
        exists inp,
          nth_error (AssetComposeTransaction.inputs this) (Z.to_nat i) = Some inp
          /\ AssetComposeTransaction.inputs
               (rebuilt this [AssetTransferInput.withoutScript inp] out)
             = [AssetTransferInput.withoutScript inp]
          /\ AssetComposeTransaction.hashWithoutScript this
               (Some (mkHashParams (Some tg) (Some i)))
             = inr (signing_hash this tg [AssetTransferInput.withoutScript inp] out))
  /\ (forall i j inp others, 0 <= i -> 0 <= j ->
        nth_error (AssetComposeTransaction.inputs this) (Z.to_nat i) = Some inp ->
        nth_error others (Z.to_nat j) = Some inp ->
        AssetComposeTransaction.hashWithoutScript
          (rebuilt this others (AssetComposeTransaction.output this))
          (Some (mkHashParams (Some tg) (Some j)))
        = AssetComposeTransaction.hashWithoutScript this
            (Some (mkHashParams (Some tg) (Some i)))).
Proof.
  intros Hs n. split; [|split; [|split]].
  - unfold AssetComposeTransaction.hashWithoutScript. cbn [index]. now rewrite Hs.
  - intros i Hi. unfold AssetComposeTransaction.hashWithoutScript. cbn [index].
    rewrite Hs. now rewrite (inputs_at_outside this i Hi).
  - intros i out Hi Ho.
    destruct (nth_error (AssetComposeTransaction.inputs this) (Z.to_nat i))
      as [inp|] eqn:E.
    + exists inp. split; [reflexivity|]. split; [reflexivity|].
      rewrite (hashWithoutScript_selected this tg (Some i)
                 [AssetTransferInput.withoutScript inp]).
      * inversion Ho as [Eo | Eo]; reflexivity.
      * rewrite Hs. now apply select_single.
    + apply nth_error_None in E. lia.
  - intros i j inp others Hi Hj Ei Ej.
    unfold AssetComposeTransaction.hashWithoutScript. cbn [index]. rewrite Hs.
    rewrite (inputs_at_valid this i inp Hi Ei).
    rewrite (inputs_at_valid
               (rebuilt this others (AssetComposeTransaction.output this))
               j inp Hj Ej).
    reflexivity.
Qed.

Lemma single_input_selection_witness :
  SignatureTag.input (SignatureTag.new InputSingle OutputAll) = InputSingle
  /\ @AssetComposeTransaction.hashWithoutScript sample_primitives sample_siblings
       sample_transaction (sample_params InputSingle OutputAll None)
     = inl MissingIndex
  /\ @AssetComposeTransaction.hashWithoutScript sample_primitives sample_siblings
       sample_transaction (sample_params InputSingle OutputAll (Some (-1)))
     = inl TypeError.
Proof.
  split; [reflexivity|].
  destruct (@single_input_selection sample_primitives sample_siblings
              sample_transaction (SignatureTag.new InputSingle OutputAll) eq_refl)
    as (E1 & E2 & _).
  split; [exact E1 | apply E2; left; lia].
Defined.

(** C3 as stated fails: with two inputs and index 2 the call does not raise
    MissingIndex. *)
Lemma single_out_of_range_counterexample :
  @AssetComposeTransaction.hashWithoutScript sample_primitives sample_siblings
    sample_transaction (sample_params InputSingle OutputAll (Some 2))
  = inl TypeError
  /\ @inl Error H256.t TypeError <> inl MissingIndex.
Proof. split; [reflexivity | discriminate]. Qed.




(** ** The encode object *)

(** C5. [toEncodeObject()] is the list of ten items: the tag 6, networkId,
    shardId, metadata, the approver and the administrator each as a list of
    no or one string, the list of the inputs' encode objects, the output's
    lockScriptHash, its parameters, and its amount as a list of no or one
    element; an optional field is never a scalar. *)
Theorem toEncodeObject_layout {P : Primitives} {Sib : Siblings}
  (this : AssetComposeTransaction.t) :
  let out := AssetComposeTransaction.output this in
  let items :=
    [ RNum 6;
      RStr (AssetComposeTransaction.networkId this);
      RNum (AssetComposeTransaction.shardId this);
      RStr (AssetComposeTransaction.metadata this);
      optional (fun a => RStr (PlatformAddress.toString a))
               (AssetComposeTransaction.approver this);
      optional (fun a => RStr (PlatformAddress.toString a))
               (AssetComposeTransaction.administrator this);
      RList (map AssetTransferInput_toEncodeObject (AssetComposeTransaction.inputs this));
      H160_toEncodeObject (AssetMintOutput.lockScriptHash out);
      RList (map RBuf (AssetMintOutput.parameters out));
      optional U64_toEncodeObject (AssetMintOutput.amount out) ] in
  AssetComposeTransaction.toEncodeObject this = RList items
  /\ List.length items = 10%nat
  /\ (forall k, In k [4; 5; 9]%nat ->
        exists l, nth_error items k = Some (RList l) /\ (List.length l <= 1)%nat)
  /\ (AssetComposeTransaction.approver this = None <-> nth_error items 4 = Some (RList []))
  /\ (AssetComposeTransaction.administrator this = None
      <-> nth_error items 5 = Some (RList []))
  /\ (AssetMintOutput.amount out = None <-> nth_error items 9 = Some (RList [])).
Proof.
  intros out items. unfold items, out.
  destruct this as [n s m a b i [l ps am]]. cbn.
  split; [destruct a, b, am; reflexivity|].
  split; [reflexivity|].
  split.
  - intros k [<-|[<-|[<-|[]]]]; cbn;
      [destruct a | destruct b | destruct am]; eexists; split;
        try reflexivity; cbn; lia.
  - repeat split; try (intros ->; reflexivity).
    + destruct a; [discriminate | reflexivity].
    + destruct b; [discriminate | reflexivity].
    + destruct am; [discriminate | reflexivity].
Qed.

(** ** The composed asset *)

(** C6, as the source has it.  With an output amount, [getComposedAsset()]
    returns the Asset of type [getAssetSchemeAddress()], with the output's
    lock script hash, parameters and amount, the transaction's hash and the
    output index 0; with a null output amount it raises
    UnsupportedOperation ("not implemented"). *)
Theorem getComposedAsset_result {P : Primitives} {Sib : Siblings}
  (this : AssetComposeTransaction.t) :
  let out := AssetComposeTransaction.output this in
  AssetComposeTransaction.getComposedAsset this
  = match AssetMintOutput.amount out with
    | Some amount =>
        inr (Asset.new (AssetComposeTransaction.getAssetSchemeAddress this)
                       (AssetMintOutput.lockScriptHash out)
                       (AssetMintOutput.parameters out)
                       amount
                       (AssetComposeTransaction.hash this)
                       0)
    | None => inl UnsupportedOperation
    end.
Proof.
  intros out. unfold out, AssetComposeTransaction.getComposedAsset.
  destruct (AssetMintOutput.amount (AssetComposeTransaction.output this)); reflexivity.
Qed.

(** C6 as stated fails: a transaction whose output amount is null gets no
    Asset with the maximum value as its amount; the call raises. *)
Lemma getComposedAsset_null_amount_counterexample :
  AssetMintOutput.amount
    (AssetComposeTransaction.output sample_transaction_without_amount)
  = None
  /\ @AssetComposeTransaction.getComposedAsset sample_primitives sample_siblings
       sample_transaction_without_amount
     = inl UnsupportedOperation
  /\ (forall a : Asset.t, @inl Error Asset.t UnsupportedOperation <> inr a).
Proof. repeat split; discriminate. Qed.

(** ** The pool of the asset scheme *)

Lemma H256_eta (h : H256.t) : H256.new (H256.value h) = h.
Proof. now destruct h. Qed.

Lemma sum_step_thrown {Sib : Siblings} (l : list AssetTransferInput.t) (e : Error) :
  fold_left AssetComposeTransaction.sum_step l (inl e) = inl e.
Proof.
  induction l as [|x l IH]; [reflexivity | exact IH].
Qed.

(** C7. The reduction of [getAssetScheme()] does not reach its sums: the
    accumulator starts as the empty object, so at the first input the entry
    of its asset type is [undefined] and that is what [U64.plus] gets as
    its left operand; when [U64.plus] throws on it, [getAssetScheme()]
    throws the same error and returns no pool, whatever the other
    inputs. *)
Theorem getAssetScheme_first_input_throws {Sib : Siblings}
  (this : AssetComposeTransaction.t) (amount : U64.t)
  (first : AssetTransferInput.t) (others : list AssetTransferInput.t) (e : Error) :
  AssetMintOutput.amount (AssetComposeTransaction.output this) = Some amount ->
  AssetComposeTransaction.inputs this = first :: others ->
  U64_plus None (AssetOutPoint.amount (AssetTransferInput.prevOut first)) = inl e ->
  obj_get (H256.value (AssetOutPoint.assetType (AssetTransferInput.prevOut first)))
          (@empty_object U64.t)
  = None
  /\ AssetComposeTransaction.getAssetScheme this = inl e.
Proof.
  intros Ea Ei Ep. split; [reflexivity|].
  unfold AssetComposeTransaction.getAssetScheme. rewrite Ea, Ei.
  cbn [fold_left].
  assert (S : AssetComposeTransaction.sum_step (inr empty_object) first = inl e).
  { unfold AssetComposeTransaction.sum_step. cbn [bind obj_get empty_object].
    now rewrite Ep. }
  now rewrite S, sum_step_thrown.
Qed.

Lemma getAssetScheme_first_input_throws_witness :
  AssetMintOutput.amount (AssetComposeTransaction.output sample_transaction)
  = Some (U64.new 1)
  /\ AssetComposeTransaction.inputs sample_transaction
     = sample_input 30 :: [sample_input 70]
  /\ @U64_plus sample_siblings None
       (AssetOutPoint.amount (AssetTransferInput.prevOut (sample_input 30)))
     = inl InvalidFieldValue
  /\ @AssetComposeTransaction.getAssetScheme sample_siblings sample_transaction
     = inl InvalidFieldValue.
Proof.
  split; [reflexivity|]. split; [reflexivity|]. split; [reflexivity|].
  exact (proj2 (@getAssetScheme_first_input_throws sample_siblings sample_transaction
                  (U64.new 1) (sample_input 30) [sample_input 70] InvalidFieldValue
                  eq_refl eq_refl eq_refl)).
Defined.

(** ** JSON *)

Lemma U64_json (a : U64.t) : U64.ensure_string ("0x" ++ U64.toString16 a) = a.
Proof.
  destruct a as [[|p]]; [reflexivity|].
  unfold U64.ensure_string, U64.toString16. cbn [U64.value].
  f_equal. cbn. apply HexString.Raw.to_N_of_pos.
Qed.

Lemma AssetOutPoint_json (x : AssetOutPoint.t) :
  AssetOutPoint.fromJSON (AssetOutPoint.toJSON x) = without_optional x.
Proof.
  destruct x as [h i ty a l ps].
  unfold AssetOutPoint.fromJSON, AssetOutPoint.toJSON, without_optional.
  cbn [AssetOutPointJSON.transactionHash AssetOutPointJSON.index
       AssetOutPointJSON.assetType AssetOutPointJSON.amount
       AssetOutPoint.transactionHash AssetOutPoint.index
       AssetOutPoint.assetType AssetOutPoint.amount].
  now rewrite U64_json, !H256_eta.
Qed.

Lemma without_optional_same (x : AssetOutPoint.t) :
  without_optional x = x <-> no_optional x.
Proof.
  destruct x as [h i ty a l ps]. unfold without_optional, no_optional. cbn.
  split.
  - intros [= <- <-]. split; reflexivity.
  - intros [-> ->]. reflexivity.
Qed.

Lemma AssetTransferInput_json (i : AssetTransferInput.t) :
  AssetTransferInput.fromJSON (AssetTransferInput.toJSON i) = input_without_optional i.
Proof.
  destruct i as [p l u].
  unfold AssetTransferInput.fromJSON, AssetTransferInput.toJSON, input_without_optional.
  cbn [AssetTransferInputJSON.prevOut AssetTransferInputJSON.lockScript
       AssetTransferInputJSON.unlockScript AssetTransferInput.prevOut
       AssetTransferInput.lockScript AssetTransferInput.unlockScript].
  now rewrite AssetOutPoint_json.
Qed.

Lemma AssetMintOutput_json (o : AssetMintOutput.t) :
  AssetMintOutput.fromJSON (AssetMintOutput.toJSON o) = o.
Proof.
  destruct o as [[h] ps [a|]];
    unfold AssetMintOutput.fromJSON, AssetMintOutput.toJSON, AssetMintOutput.new;
    cbn [AssetMintOutputJSON.lockScriptHash AssetMintOutputJSON.parameters
         AssetMintOutputJSON.amount AssetMintOutput.lockScriptHash
         AssetMintOutput.parameters AssetMintOutput.amount H160.value option_map];
    [now rewrite U64_json | reflexivity].
Qed.

Lemma PlatformAddress_json (a : option PlatformAddress.t) :
  option_map PlatformAddress.ensure_string (option_map PlatformAddress.toString a) = a.
Proof. now destruct a as [[v]|]. Qed.

Lemma AssetComposeTransaction_json (this : AssetComposeTransaction.t) :
  AssetComposeTransaction.fromJSON (AssetComposeTransaction.toJSON this)
  = rebuilt this (map input_without_optional (AssetComposeTransaction.inputs this))
                 (AssetComposeTransaction.output this).
Proof.
  unfold AssetComposeTransaction.fromJSON, AssetComposeTransaction.toJSON.
  rewrite new_same.
  cbn [AssetComposeTransactionJSON.data_ AssetComposeTransactionJSON.networkId
       AssetComposeTransactionJSON.shardId AssetComposeTransactionJSON.metadata
       AssetComposeTransactionJSON.inputs AssetComposeTransactionJSON.output
       AssetComposeTransactionJSON.approver AssetComposeTransactionJSON.administrator].
  rewrite !PlatformAddress_json, AssetMintOutput_json, map_map.
  unfold rebuilt. f_equal. apply map_ext, AssetTransferInput_json.
Qed.

(** C8, as the source has it.  [fromJSON(toJSON(x))] equals [x] on
    transactionHash, index, assetType and amount and has no lockScriptHash
    and no parameters, which the JSON form does not carry: the round trip
    is exact for the out-points without the optional fields, and for the
    transactions whose inputs refer to such out-points. *)
Theorem json_round_trip :
  (forall x : AssetOutPoint.t,
     AssetOutPoint.fromJSON (AssetOutPoint.toJSON x) = without_optional x)
  /\ (forall x : AssetOutPoint.t,
        AssetOutPoint.fromJSON (AssetOutPoint.toJSON x) = x <-> no_optional x)
  /\ (forall this : AssetComposeTransaction.t,
        AssetComposeTransaction.fromJSON (AssetComposeTransaction.toJSON this)
        = rebuilt this
            (map input_without_optional (AssetComposeTransaction.inputs this))
            (AssetComposeTransaction.output this))
  /\ (forall this : AssetComposeTransaction.t,
        AssetComposeTransaction.fromJSON (AssetComposeTransaction.toJSON this) = this
        <-> Forall (fun i => no_optional (AssetTransferInput.prevOut i))
                   (AssetComposeTransaction.inputs this)).
Proof.
  split; [exact AssetOutPoint_json|].
  split; [intros x; rewrite AssetOutPoint_json; apply without_optional_same|].
  split; [exact AssetComposeTransaction_json|].
  intros this. rewrite AssetComposeTransaction_json.
  destruct this as [n s m a b ins o]. unfold rebuilt. cbn.
  assert (M : map input_without_optional ins = ins
              <-> Forall (fun i => no_optional (AssetTransferInput.prevOut i)) ins).
  { induction ins as [|[p l u] ins IH]; simpl.
    - split; [constructor | reflexivity].
    - unfold input_without_optional at 1. cbn.
      split.
      + intros [= E1 E2]. constructor; [now apply without_optional_same | now apply IH].
      + intros F. inversion F as [|? ? F1 F2]; subst. cbn in F1.
        apply without_optional_same in F1. apply IH in F2. now rewrite F1, F2. }
  rewrite <- M. split; [now intros [= ->] | now intros ->].
Qed.

(** C8 as stated fails: an out-point built with a lockScriptHash and
    parameters comes back from its JSON form without them. *)
Lemma out_point_round_trip_counterexample :
  AssetOutPoint.fromJSON (AssetOutPoint.toJSON sample_out_point_with_lock)
  = without_optional sample_out_point_with_lock
  /\ AssetOutPoint.lockScriptHash
       (AssetOutPoint.fromJSON (AssetOutPoint.toJSON sample_out_point_with_lock))
     = None
  /\ AssetOutPoint.lockScriptHash sample_out_point_with_lock
     = Some (H160.new "8cf03a38366586bfe66d8ada3c3b355de3273b86")
  /\ AssetOutPoint.fromJSON (AssetOutPoint.toJSON sample_out_point_with_lock)
     <> sample_out_point_with_lock.
Proof.
  repeat split. discriminate.
Qed.

(** ** The receiver after a call *)

Lemma push_each_appended {Sib : Siblings}
  (xs : list InputArg) (pushed : list AssetTransferInput.t) (from : nat) :
  AssetComposeTransaction.push_each pushed xs from
  = (option_map InvalidInput (rejected xs from), (pushed ++ appended xs)%list).
Proof.
  revert pushed from. induction xs as [|[i|a|] xs IH]; intros pushed from; simpl.
  - now rewrite app_nil_r.
  - now rewrite IH, <- app_assoc.
  - now rewrite IH, <- app_assoc.
  - now rewrite app_nil_r.
Qed.

(** C9, as the source has it.  No operation changes networkId, shardId,
    metadata, approver, administrator or output of its receiver, and every
    operation but [addInputs] leaves its inputs as they are; [addInputs]
    appends the given inputs to the receiver's own list, up to the first
    element it rejects, and returns the receiver. *)
Theorem receiver_after_call {P : Primitives} {Sib : Siblings}
  (op : Operation) (this : AssetComposeTransaction.t) :
  let this' := snd (call op this) in
  AssetComposeTransaction.networkId this' = AssetComposeTransaction.networkId this
  /\ AssetComposeTransaction.shardId this' = AssetComposeTransaction.shardId this
  /\ AssetComposeTransaction.metadata this' = AssetComposeTransaction.metadata this
  /\ AssetComposeTransaction.approver this' = AssetComposeTransaction.approver this
  /\ AssetComposeTransaction.administrator this'
     = AssetComposeTransaction.administrator this
  /\ AssetComposeTransaction.output this' = AssetComposeTransaction.output this
  /\ match op with
     | Call_addInputs inputs rest =>
         AssetComposeTransaction.inputs this'
         = (AssetComposeTransaction.inputs this ++ appended (given inputs rest))%list
         /\ fst (call op this)
            = match rejected (given inputs rest) 0 with
              | Some at_index => inl (InvalidInput at_index)
              | None => inr (OfTransaction this')
              end
     | _ => this' = this
     end.
Proof.
  destruct op; cbn; try (repeat split; reflexivity).
  unfold AssetComposeTransaction.addInputs. fold (given inputs rest).
  rewrite push_each_appended.
  destruct (rejected (given inputs rest) 0); cbn; repeat split; reflexivity.
Qed.

(** C9 as stated fails: [addInputs] with one input leaves its receiver with
    three inputs where it had two. *)
Lemma addInputs_changes_receiver_counterexample :
  AssetComposeTransaction.inputs
    (snd (@call sample_primitives sample_siblings
            (Call_addInputs (One (ArgTransferInput (sample_input 5))) [])
            sample_transaction))
  = [sample_input 30; sample_input 70; sample_input 5]
  /\ AssetComposeTransaction.inputs sample_transaction
     = [sample_input 30; sample_input 70]
  /\ snd (@call sample_primitives sample_siblings
            (Call_addInputs (One (ArgTransferInput (sample_input 5))) [])
            sample_transaction)
     <> sample_transaction.
Proof.
  repeat split. discriminate.
Qed.

(** * Further properties of the code *)

(** ** What the signing hash reads *)

Lemma nth_error_map_eq {A B} (f : A -> B) (l l' : list A) (n : nat) :
  map f l = map f l' ->
  option_map f (nth_error l n) = option_map f (nth_error l' n).
Proof.
  intros E. rewrite <- !nth_error_map. now rewrite E.
Qed.

Lemma inputs_at_map {P : Primitives} {Sib : Siblings}
  (this this' : AssetComposeTransaction.t) (i : Z) :
  map AssetTransferInput.withoutScript (AssetComposeTransaction.inputs this)
  = map AssetTransferInput.withoutScript (AssetComposeTransaction.inputs this') ->
  option_map AssetTransferInput.withoutScript (AssetComposeTransaction.inputs_at this i)
  = option_map AssetTransferInput.withoutScript (AssetComposeTransaction.inputs_at this' i).
Proof.
  intros E. unfold AssetComposeTransaction.inputs_at.
  destruct (i <? 0); [reflexivity|]. now apply nth_error_map_eq.
Qed.

(** X1. [hashWithoutScript] reads the inputs only through [withoutScript]:
    replacing the inputs by others that are the same once their scripts are
    cleared changes neither the hash nor the error, whatever the
    parameters. *)
Theorem hashWithoutScript_ignores_scripts {P : Primitives} {Sib : Siblings}
  (this : AssetComposeTransaction.t) (others : list AssetTransferInput.t)
  (params : option HashParams) :
  map AssetTransferInput.withoutScript others
  = map AssetTransferInput.withoutScript (AssetComposeTransaction.inputs this) ->
  AssetComposeTransaction.hashWithoutScript
    (rebuilt this others (AssetComposeTransaction.output this)) params
  = AssetComposeTransaction.hashWithoutScript this params.
Proof.
  intros E.
  pose (this' := rebuilt this others (AssetComposeTransaction.output this)).
  assert (E' : map AssetTransferInput.withoutScript (AssetComposeTransaction.inputs this')
               = map AssetTransferInput.withoutScript (AssetComposeTransaction.inputs this))
    by exact E.
  fold this'. unfold AssetComposeTransaction.hashWithoutScript.
  set (tg := match params with
             | Some (mkHashParams (Some tg) _) => tg
             | _ => SignatureTag.new InputAll OutputAll
             end).
  set (idx := match params with Some p => index p | None => None end).
  destruct (SignatureTag.input tg); [now rewrite E' | | reflexivity].
  destruct idx as [i|]; [|reflexivity].
  pose proof (inputs_at_map this' this i E') as M.
  destruct (AssetComposeTransaction.inputs_at this' i) as [a|],
           (AssetComposeTransaction.inputs_at this i) as [b|]; try discriminate M;
    [|reflexivity].
  cbn [option_map] in M.
  assert (W : AssetTransferInput.withoutScript a = AssetTransferInput.withoutScript b)
    by congruence.
  now rewrite W.
Qed.

Lemma hashWithoutScript_ignores_scripts_witness :
  map AssetTransferInput.withoutScript
      [sample_input_rescripted 30; sample_input_rescripted 70]
  = map AssetTransferInput.withoutScript
        (AssetComposeTransaction.inputs sample_transaction)
  /\ [sample_input_rescripted 30; sample_input_rescripted 70]
     <> AssetComposeTransaction.inputs sample_transaction
  /\ @AssetComposeTransaction.hashWithoutScript sample_primitives sample_siblings
       (rebuilt sample_transaction
                [sample_input_rescripted 30; sample_input_rescripted 70]
                (AssetComposeTransaction.output sample_transaction))
       (sample_params InputSingle OutputAll (Some 1))
     = @AssetComposeTransaction.hashWithoutScript sample_primitives sample_siblings
         sample_transaction (sample_params InputSingle OutputAll (Some 1)).
Proof.
  split; [reflexivity|]. split; [discriminate|].
  exact (@hashWithoutScript_ignores_scripts sample_primitives sample_siblings
           sample_transaction
           [sample_input_rescripted 30; sample_input_rescripted 70]
           (sample_params InputSingle OutputAll (Some 1)) eq_refl).
Defined.

(** X2. With the tag [{input: "single", output: []}] the hash commits to
    the scalar fields and to the out-point of the chosen input, and to
    nothing else: two transactions with the same scalar fields whose chosen
    inputs refer to the same out-point have the same hash, whatever their
    other inputs, their scripts and their outputs. *)
Theorem single_empty_hash_scope {P : Primitives} {Sib : Siblings}
  (this : AssetComposeTransaction.t) (others : list AssetTransferInput.t)
  (output' : AssetMintOutput.t) (i j : Z) (inp inp' : AssetTransferInput.t) :
  0 <= i -> 0 <= j ->
  nth_error (AssetComposeTransaction.inputs this) (Z.to_nat i) = Some inp ->
  nth_error others (Z.to_nat j) = Some inp' ->
  AssetTransferInput.prevOut inp = AssetTransferInput.prevOut inp' ->
  let tg := SignatureTag.new InputSingle (OutputIndices []) in
  AssetComposeTransaction.hashWithoutScript (rebuilt this others output')
    (Some (mkHashParams (Some tg) (Some j)))
  = AssetComposeTransaction.hashWithoutScript this
      (Some (mkHashParams (Some tg) (Some i))).
Proof.
  intros Hi Hj Ei Ej Ep tg.
  unfold AssetComposeTransaction.hashWithoutScript. cbn [index tg SignatureTag.input].
  rewrite (inputs_at_valid this i inp Hi Ei).
  rewrite (inputs_at_valid (rebuilt this others output') j inp' Hj Ej).
  unfold AssetTransferInput.withoutScript. rewrite Ep. reflexivity.
Qed.

Lemma single_empty_hash_scope_witness :
  0 <= 1 /\ 0 <= 0
  /\ nth_error (AssetComposeTransaction.inputs sample_transaction) (Z.to_nat 1)
     = Some (sample_input 70)
  /\ nth_error [sample_input_rescripted 70] (Z.to_nat 0)
     = Some (sample_input_rescripted 70)
  /\ @AssetComposeTransaction.hashWithoutScript sample_primitives sample_siblings
       (rebuilt sample_transaction [sample_input_rescripted 70] placeholder_output)
       (sample_params InputSingle (OutputIndices []) (Some 0))
     = @AssetComposeTransaction.hashWithoutScript sample_primitives sample_siblings
         sample_transaction (sample_params InputSingle (OutputIndices []) (Some 1)).
Proof.
  repeat (split; [first [lia | reflexivity]|]).
  exact (@single_empty_hash_scope sample_primitives sample_siblings
           sample_transaction [sample_input_rescripted 70] placeholder_output
           1 0 (sample_input 70) (sample_input_rescripted 70)
           ltac:(lia) ltac:(lia) eq_refl eq_refl eq_refl).
Defined.

Lemma inputs_at_some {P : Primitives} {Sib : Siblings}
  (this : AssetComposeTransaction.t) (i : Z) (inp : AssetTransferInput.t) :
  AssetComposeTransaction.inputs_at this i = Some inp ->
  0 <= i < Z.of_nat (List.length (AssetComposeTransaction.inputs this))
  /\ nth_error (AssetComposeTransaction.inputs this) (Z.to_nat i) = Some inp.
Proof.
  unfold AssetComposeTransaction.inputs_at.
  destruct (Z.ltb_spec i 0); [discriminate|].
  intros E. split; [|exact E].
  assert (nth_error (AssetComposeTransaction.inputs this) (Z.to_nat i) <> None)
    as N by congruence.
  apply nth_error_Some in N. lia.
Qed.

(** X3. [hashWithoutScript] returns a hash exactly when the tag is accepted:
    its input is "all", or "single" with an index of an existing input, and
    its output is "all" or the empty sequence.  Otherwise it raises
    MissingIndex, the runtime's TypeError or InvalidSignatureTag, and no
    other error. *)
Theorem hashWithoutScript_accepts {P : Primitives} {Sib : Siblings}
  (this : AssetComposeTransaction.t) (tg : SignatureTag.t) (idx : option Z) :
  let result :=
    AssetComposeTransaction.hashWithoutScript this (Some (mkHashParams (Some tg) idx)) in
  ((exists h, result = inr h)
   <-> (exists ins, selects_inputs this (SignatureTag.input tg) idx ins)
       /\ (exists out, selects_output this (SignatureTag.output tg) out))
  /\ (forall e, result = inl e ->
        e = MissingIndex \/ e = TypeError \/ exists f, e = InvalidSignatureTag f).
Proof.
  intros result. split; [split|].
  - intros [h E]. unfold result, AssetComposeTransaction.hashWithoutScript in E.
    cbn [index] in E. destruct tg as [ti to]. cbn [SignatureTag.input SignatureTag.output] in *.
    destruct ti as [| |v];
      [| destruct idx as [i|];
         [destruct (AssetComposeTransaction.inputs_at this i) as [inp|] eqn:Ei|] |];
      destruct to as [|[|z l]|v']; cbn [bind] in E; try discriminate E.
    + split; eexists; constructor.
    + split; eexists; constructor.
    + apply inputs_at_some in Ei as [Hi Ei].
      split; [exists [AssetTransferInput.withoutScript inp]; now apply select_single|].
      eexists; constructor.
    + apply inputs_at_some in Ei as [Hi Ei].
      split; [exists [AssetTransferInput.withoutScript inp]; now apply select_single|].
      eexists; constructor.
  - intros [[ins Hi] [out Ho]]. unfold result.
    rewrite (hashWithoutScript_selected this tg idx ins Hi).
    inversion Ho; eexists; reflexivity.
  - intros e. unfold result, AssetComposeTransaction.hashWithoutScript.
    cbn [index]. destruct tg as [ti to]. cbn [SignatureTag.input SignatureTag.output].
    destruct ti as [| |v]; [| destruct idx as [i|];
      [destruct (AssetComposeTransaction.inputs_at this i)|] |];
      destruct to as [|[|z l]|v']; cbn [bind]; intros [= <-]; eauto.
Qed.

(** ** What [addInputs] leaves behind *)

Lemma appended_accepted {Sib : Siblings} (xs ys : list InputArg) :
  Forall (fun x => x <> ArgOther) xs ->
  appended (xs ++ ys) = (appended xs ++ appended ys)%list
  /\ List.length (appended xs) = List.length xs.
Proof.
  induction 1 as [|x xs Hx _ [IH1 IH2]]; [split; reflexivity|].
  destruct x as [i|a|]; [| |congruence]; cbn; now rewrite IH1, IH2.
Qed.

Lemma rejected_accepted (xs ys : list InputArg) (from : nat) :
  Forall (fun x => x <> ArgOther) xs ->
  rejected (xs ++ ys) from = rejected ys (from + List.length xs).
Proof.
  intros F. revert from.
  induction F as [|x xs Hx _ IH]; intros from; cbn.
  - now rewrite Nat.add_0_r.
  - destruct x as [i|a|]; [| |congruence]; rewrite IH; f_equal; lia.
Qed.

(** X4. [addInputs] is not all-or-nothing: when an element that is neither
    an AssetTransferInput nor an Asset follows accepted ones, the call
    throws naming its position, the accepted elements before it are in the
    receiver's inputs all the same, and the elements after it are not
    looked at. *)
Theorem addInputs_stops_at_rejected {Sib : Siblings}
  (this : AssetComposeTransaction.t) (before after rest : list InputArg) :
  Forall (fun x => x <> ArgOther) before ->
  let r := AssetComposeTransaction.addInputs this
             (Many (before ++ ArgOther :: after)) rest in
  fst r = inl (InvalidInput (List.length before))
  /\ AssetComposeTransaction.inputs (snd r)
     = (AssetComposeTransaction.inputs this ++ appended before)%list
  /\ List.length (AssetComposeTransaction.inputs (snd r))
     = (List.length (AssetComposeTransaction.inputs this) + List.length before)%nat.
Proof.
  intros F r. unfold r, AssetComposeTransaction.addInputs.
  rewrite push_each_appended, (rejected_accepted _ _ _ F). cbn.
  destruct (appended_accepted before (ArgOther :: after) F) as [E L].
  rewrite E. cbn [appended]. rewrite app_nil_r.
  repeat split. now rewrite length_app, L.
Qed.

Lemma addInputs_stops_at_rejected_witness :
  Forall (fun x => x <> ArgOther) [ArgTransferInput (sample_input 5)]
  /\ fst (@AssetComposeTransaction.addInputs sample_siblings sample_transaction
            (Many ([ArgTransferInput (sample_input 5)]
                   ++ ArgOther :: [ArgTransferInput (sample_input 6)])) [])
     = inl (InvalidInput 1)
  /\ AssetComposeTransaction.inputs
       (snd (@AssetComposeTransaction.addInputs sample_siblings sample_transaction
               (Many ([ArgTransferInput (sample_input 5)]
                      ++ ArgOther :: [ArgTransferInput (sample_input 6)])) []))
     = [sample_input 30; sample_input 70; sample_input 5].
Proof.
  assert (F : Forall (fun x => x <> ArgOther) [ArgTransferInput (sample_input 5)])
    by (repeat constructor; discriminate).
  split; [exact F|].
  destruct (@addInputs_stops_at_rejected sample_siblings
              sample_transaction [ArgTransferInput (sample_input 5)]
              [ArgTransferInput (sample_input 6)] [] F) as (E1 & E2 & _).
  split; [exact E1 | exact E2].
Defined.

(** X5. When every given element is an AssetTransferInput or an Asset,
    [addInputs] returns its receiver, and two calls in a row leave the
    receiver as one call with the two arrays joined does; the arguments
    after an array play no part. *)
Theorem addInputs_in_turn {Sib : Siblings}
  (this : AssetComposeTransaction.t) (xs ys rest : list InputArg) :
  Forall (fun x => x <> ArgOther) xs ->
  let first := AssetComposeTransaction.addInputs this (Many xs) rest in
  fst first = inr (snd first)
  /\ AssetComposeTransaction.inputs (snd first)
     = (AssetComposeTransaction.inputs this ++ appended xs)%list
  /\ snd (AssetComposeTransaction.addInputs (snd first) (Many ys) rest)
     = snd (AssetComposeTransaction.addInputs this (Many (xs ++ ys)) [])
  /\ first = AssetComposeTransaction.addInputs this (Many xs) [].
Proof.
  intros F first. unfold first, AssetComposeTransaction.addInputs.
  rewrite !push_each_appended.
  pose proof (rejected_accepted xs [] 0 F) as R. rewrite app_nil_r in R.
  rewrite R. cbn [rejected option_map].
  destruct (appended_accepted xs ys F) as [E _]. rewrite E.
  cbn. split; [reflexivity|]. split; [reflexivity|]. split; [|reflexivity].
  rewrite app_assoc.
  destruct (rejected ys 0), (rejected (xs ++ ys) 0); reflexivity.
Qed.

Lemma addInputs_in_turn_witness :
  Forall (fun x => x <> ArgOther) [ArgTransferInput (sample_input 5)]
  /\ AssetComposeTransaction.inputs
       (snd (@AssetComposeTransaction.addInputs sample_siblings
               (snd (@AssetComposeTransaction.addInputs sample_siblings
                       sample_transaction (Many [ArgTransferInput (sample_input 5)]) []))
               (Many [ArgTransferInput (sample_input 6)]) []))
     = [sample_input 30; sample_input 70; sample_input 5; sample_input 6].
Proof.
  assert (F : Forall (fun x => x <> ArgOther) [ArgTransferInput (sample_input 5)])
    by (repeat constructor; discriminate).
  split; [exact F|].
  destruct (@addInputs_in_turn sample_siblings sample_transaction
              [ArgTransferInput (sample_input 5)]
              [ArgTransferInput (sample_input 6)] [] F) as (_ & _ & E & _).
  cbv zeta in E. rewrite E. reflexivity.
Defined.

(** ** The shape of the derived addresses *)

Lemma chars_app (a b : string) :
  list_ascii_of_string (a ++ b)
  = (list_ascii_of_string a ++ list_ascii_of_string b)%list.
Proof. induction a as [|c a IH]; simpl; [reflexivity | now rewrite IH]. Qed.

Lemma chars_length (s : string) :
  List.length (list_ascii_of_string s) = String.length s.
Proof. induction s as [|c s IH]; simpl; [reflexivity | now rewrite IH]. Qed.

Lemma chars_substring (n m : nat) (s : string) :
  list_ascii_of_string (substring n m s)
  = firstn m (skipn n (list_ascii_of_string s)).
Proof.
  revert n m. induction s as [|c s IH]; intros n m.
  - destruct n, m; reflexivity.
  - destruct n as [|n]; [destruct m as [|m]|]; simpl.
    + reflexivity.
    + now rewrite (IH 0%nat m).
    + apply IH.
Qed.

Lemma forallb_skipn {A} (p : A -> bool) (n : nat) (l : list A) :
  forallb p l = true -> forallb p (skipn n l) = true.
Proof.
  revert n. induction l as [|x l IH]; intros [|n]; simpl; auto.
  intros E. apply andb_true_iff in E as [_ E]. auto.
Qed.

Lemma is_hex_digest_chars (n : nat) (s : string) :
  is_hex_digest n s = true
  <-> List.length (list_ascii_of_string s) = n
      /\ forallb is_hex_digit (list_ascii_of_string s) = true.
Proof.
  unfold is_hex_digest. rewrite andb_true_iff, Nat.eqb_eq, chars_length. tauto.
Qed.

Lemma is_hex_digest_app (n m : nat) (a b : string) :
  is_hex_digest n a = true -> is_hex_digest m b = true ->
  is_hex_digest (n + m) (a ++ b) = true.
Proof.
  rewrite !is_hex_digest_chars, chars_app, length_app, forallb_app.
  intros [-> ->] [-> ->]. auto.
Qed.

Lemma is_hex_digest_tail (s : string) :
  is_hex_digest 64 s = true -> is_hex_digest 56 (substring 8 56 s) = true.
Proof.
  rewrite !is_hex_digest_chars, chars_substring. intros [L F]. split.
  - rewrite length_firstn, length_skipn, L. reflexivity.
  - now apply forallb_firstn, forallb_skipn.
Qed.

Lemma hex_byte_digest (b : Z) : 0 <= b < 256 -> is_hex_digest 2 (hex_byte b) = true.
Proof.
  intros Hb.
  assert (A : forallb (fun b => is_hex_digest 2 (hex_byte b)) byte_values = true)
    by (vm_compute; reflexivity).
  rewrite forallb_forall in A. apply A, in_byte_values, Hb.
Qed.

Lemma convertU16toHex_digest (id : Z) : is_hex_digest 4 (convertU16toHex id) = true.
Proof.
  rewrite convertU16toHex_bytes.
  apply (is_hex_digest_app 2 2); apply hex_byte_digest;
    rewrite js_and_255; apply Z.mod_pos_bound; lia.
Qed.

(** X6. Both derived addresses are well-formed 256-bit values: 64
    lowercase hexadecimal digits, whatever the shard id, as long as the
    keyed hash returns such a digest. *)
Theorem addresses_are_digests {P : Primitives} {Sib : Siblings}
  (this : AssetComposeTransaction.t) :
  (forall d k, is_hex_digest 64 (blake256WithKey d k) = true) ->
  is_hex_digest 64 (H256.value (AssetComposeTransaction.getAssetSchemeAddress this))
  = true
  /\ is_hex_digest 64 (H256.value (AssetComposeTransaction.getAssetAddress this))
     = true.
Proof.
  intros D.
  rewrite (getAssetSchemeAddress_value D), (getAssetAddress_value D).
  split.
  - apply (is_hex_digest_app 4 60); [reflexivity|].
    apply (is_hex_digest_app 4 56);
      [apply convertU16toHex_digest | apply is_hex_digest_tail, D].
  - apply (is_hex_digest_app 4 60); [reflexivity|].
    apply (is_hex_digest_app 4 56);
      [apply convertU16toHex_digest | apply is_hex_digest_tail, D].
Qed.

Lemma addresses_are_digests_witness :
  (forall d k, is_hex_digest 64 (@blake256WithKey sample_primitives d k) = true)
  /\ is_hex_digest 64
       (H256.value (@AssetComposeTransaction.getAssetSchemeAddress
                      sample_primitives sample_siblings (sample_transaction_at (-1))))
     = true.
Proof.
  split; [exact sample_keyed_digest|].
  exact (proj1 (@addresses_are_digests sample_primitives sample_siblings
                  (sample_transaction_at (-1)) sample_keyed_digest)).
Defined.

(** X7. No asset scheme address is an asset address: the scheme address of
    one transaction differs from the asset address of any transaction, the
    same or another, in its first digit. *)
Theorem scheme_and_asset_addresses_apart {P : Primitives} {Sib : Siblings}
  (this other : AssetComposeTransaction.t) :
  (forall d k, is_hex_digest 64 (blake256WithKey d k) = true) ->
  substring 0 2 (H256.value (AssetComposeTransaction.getAssetSchemeAddress this)) = "53"
  /\ substring 0 2 (H256.value (AssetComposeTransaction.getAssetAddress other)) = "41"
  /\ AssetComposeTransaction.getAssetSchemeAddress this
     <> AssetComposeTransaction.getAssetAddress other.
Proof.
  intros D.
  pose proof (getAssetSchemeAddress_value D this) as E1.
  pose proof (getAssetAddress_value D other) as E2.
  split; [now rewrite E1|]. split; [now rewrite E2|].
  intros E. rewrite E in E1. rewrite E1 in E2. discriminate E2.
Qed.

Lemma scheme_and_asset_addresses_apart_witness :
  (forall d k, is_hex_digest 64 (@blake256WithKey sample_primitives d k) = true)
  /\ @AssetComposeTransaction.getAssetSchemeAddress
       sample_primitives sample_siblings sample_transaction
     <> @AssetComposeTransaction.getAssetAddress
          sample_primitives sample_siblings sample_transaction_without_amount.
Proof.
  split; [exact sample_keyed_digest|].
  exact (proj2 (proj2 (@scheme_and_asset_addresses_apart
                         sample_primitives sample_siblings sample_transaction
                         sample_transaction_without_amount sample_keyed_digest))).
Defined.

(** ** Reading the shard prefix back *)

Lemma to_N_app (a b : string) (acc : N) :
  HexString.Raw.to_N (a ++ b) acc = HexString.Raw.to_N b (HexString.Raw.to_N a acc).
Proof.
  revert acc. induction a as [|c a IH]; intros acc; simpl; [reflexivity | apply IH].
Qed.

Lemma in_digit_values (n : Z) : 0 <= n < 16 -> In n digit_values.
Proof.
  intros Hn. unfold digit_values.
  apply in_map_iff. exists (Z.to_nat n). split; [lia|].
  apply in_seq. lia.
Qed.

Lemma hex_digit_value (n : Z) :
  0 <= n < 16 -> HexString.ascii_to_digit (hex_digit n) = Some (Z.to_N n).
Proof.
  intros Hn.
  assert (A : forallb (fun n => match HexString.ascii_to_digit (hex_digit n) with
                                | Some v => N.eqb v (Z.to_N n)
                                | None => false
                                end) digit_values = true)
    by (vm_compute; reflexivity).
  rewrite forallb_forall in A. specialize (A n (in_digit_values n Hn)).
  destruct (HexString.ascii_to_digit (hex_digit n)); [|discriminate].
  apply N.eqb_eq in A. now subst.
Qed.

Lemma to_N_hex_byte (b : Z) (acc : N) :
  0 <= b < 256 ->
  HexString.Raw.to_N (hex_byte b) acc = (Z.to_N b + 256 * acc)%N.
Proof.
  intros Hb. unfold hex_byte. cbn [HexString.Raw.to_N].
  pose proof (Z.div_mod b 16 ltac:(lia)) as E.
  pose proof (Z.mod_pos_bound b 16 ltac:(lia)) as M.
  assert (0 <= b / 16 < 16) as Q
    by (split; [apply Z.div_pos; lia | apply Z.div_lt_upper_bound; lia]).
  rewrite !hex_digit_value by lia. lia.
Qed.

(** X8. The shard prefix can be read back: as a hexadecimal number it is
    [shardId mod 2^16]; so the shard ids from 0 to 65535 have prefixes of
    their own, and an id outside that range shares the prefix of the id it
    is congruent to. *)
Theorem shard_prefix_read_back (id : Z) :
  parse_hex (convertU16toHex id) = id mod 2 ^ 16
  /\ (forall other, convertU16toHex other = convertU16toHex id
                    <-> other mod 2 ^ 16 = id mod 2 ^ 16).
Proof.
  assert (R : forall x, parse_hex (convertU16toHex x) = x mod 2 ^ 16).
  { intros x. rewrite convertU16toHex_u16. unfold parse_hex, hex_u16_be.
    pose proof (Z.mod_pos_bound x (2 ^ 16) ltac:(lia)) as B.
    set (v := x mod 2 ^ 16) in *.
    pose proof (Z.div_mod v 256 ltac:(lia)) as E.
    pose proof (Z.mod_pos_bound v 256 ltac:(lia)) as M.
    assert (0 <= v / 256 < 256) as Q
      by (split; [apply Z.div_pos; lia | apply Z.div_lt_upper_bound; lia]).
    rewrite to_N_app, !to_N_hex_byte by lia. lia. }
  split; [apply R|].
  intros other. split.
  - intros E. now rewrite <- !R, E.
  - intros E. now rewrite !convertU16toHex_u16, E.
Qed.

(** ** JSON and the wire form *)

Lemma AssetOutPoint_toJSON_core (x : AssetOutPoint.t) :
  AssetOutPoint.toJSON (without_optional x) = AssetOutPoint.toJSON x.
Proof. now destruct x. Qed.

(** X9. The JSON form of an out-point keeps what the wire form keeps: the
    out-point that comes back from [toJSON] and [fromJSON] has the encode
    object of the original, although its optional fields are gone. *)
Theorem AssetOutPoint_json_keeps_encoding {P : Primitives} (x : AssetOutPoint.t) :
  AssetOutPoint.toEncodeObject (AssetOutPoint.fromJSON (AssetOutPoint.toJSON x))
  = AssetOutPoint.toEncodeObject x
  /\ AssetOutPoint.toEncodeObject x
     = RList [ H256_toEncodeObject (AssetOutPoint.transactionHash x);
               RNum (AssetOutPoint.index x);
               H256_toEncodeObject (AssetOutPoint.assetType x);
               U64_toEncodeObject (AssetOutPoint.amount x) ].
Proof.
  rewrite AssetOutPoint_json. now destruct x.
Qed.

(** X10. Two out-points have the same JSON form exactly when they agree on
    transactionHash, index, assetType and amount: [toJSON] tells apart any
    two transaction hashes, indices, asset types or amounts, and nothing
    else. *)
Theorem AssetOutPoint_toJSON_same (x y : AssetOutPoint.t) :
  AssetOutPoint.toJSON x = AssetOutPoint.toJSON y
  <-> AssetOutPoint.transactionHash x = AssetOutPoint.transactionHash y
      /\ AssetOutPoint.index x = AssetOutPoint.index y
      /\ AssetOutPoint.assetType x = AssetOutPoint.assetType y
      /\ AssetOutPoint.amount x = AssetOutPoint.amount y.
Proof.
  split.
  - intros E.
    assert (W : without_optional x = without_optional y)
      by now rewrite <- !AssetOutPoint_json, E.
    unfold without_optional in W. now injection W.
  - intros (E1 & E2 & E3 & E4).
    rewrite <- (AssetOutPoint_toJSON_core x), <- (AssetOutPoint_toJSON_core y).
    unfold without_optional. now rewrite E1, E2, E3, E4.
Qed.

Lemma AssetTransferInput_toJSON_core (i : AssetTransferInput.t) :
  AssetTransferInput.toJSON (input_without_optional i) = AssetTransferInput.toJSON i.
Proof.
  destruct i as [p l u]. unfold AssetTransferInput.toJSON, input_without_optional.
  cbn. now rewrite AssetOutPoint_toJSON_core.
Qed.

(** X11. Serialising is stable: the transaction read back from its JSON
    form has the same JSON form, so a second round trip changes nothing
    more. *)
Theorem AssetComposeTransaction_toJSON_stable (this : AssetComposeTransaction.t) :
  let back := AssetComposeTransaction.fromJSON (AssetComposeTransaction.toJSON this) in
  AssetComposeTransaction.toJSON back = AssetComposeTransaction.toJSON this
  /\ AssetComposeTransaction.fromJSON (AssetComposeTransaction.toJSON back) = back.
Proof.
  intros back.
  assert (E : AssetComposeTransaction.toJSON back = AssetComposeTransaction.toJSON this).
  { unfold back. rewrite AssetComposeTransaction_json.
    unfold AssetComposeTransaction.toJSON, rebuilt. cbn.
    rewrite map_map.
    now rewrite (map_ext _ _ AssetTransferInput_toJSON_core). }
  split; [exact E | now rewrite E].
Qed.

(** X12. If the encode object of an input is made of the encode object of
    its out-point and of its two scripts, a transaction read back from its
    JSON form has the bytes and the hash of the original, whether or not
    its inputs' out-points carried the optional fields. *)
Theorem json_keeps_hash {P : Primitives} {Sib : Siblings}
  (this : AssetComposeTransaction.t)
  (combine : RlpItem -> Buffer -> Buffer -> RlpItem) :
  (forall i, AssetTransferInput_toEncodeObject i
             = combine (AssetOutPoint.toEncodeObject (AssetTransferInput.prevOut i))
                       (AssetTransferInput.lockScript i)
                       (AssetTransferInput.unlockScript i)) ->
  let back := AssetComposeTransaction.fromJSON (AssetComposeTransaction.toJSON this) in
  AssetComposeTransaction.rlpBytes back = AssetComposeTransaction.rlpBytes this
  /\ AssetComposeTransaction.hash back = AssetComposeTransaction.hash this.
Proof.
  intros C back.
  assert (E : AssetComposeTransaction.toEncodeObject back
              = AssetComposeTransaction.toEncodeObject this).
  { unfold back. rewrite AssetComposeTransaction_json.
    unfold AssetComposeTransaction.toEncodeObject, rebuilt. cbn.
    rewrite map_map.
    assert (M : forall i, AssetTransferInput_toEncodeObject (input_without_optional i)
                          = AssetTransferInput_toEncodeObject i).
    { intros [p l u]. rewrite !C. unfold input_without_optional. cbn. now destruct p. }
    now rewrite (map_ext _ _ M). }
  unfold AssetComposeTransaction.hash, AssetComposeTransaction.rlpBytes.
  now rewrite E.
Qed.

Lemma json_keeps_hash_witness :
  (forall i, @AssetTransferInput_toEncodeObject sample_siblings i
             = (fun p l u => RList [p; RBuf l; RBuf u])
                 (@AssetOutPoint.toEncodeObject sample_primitives
                    (AssetTransferInput.prevOut i))
                 (AssetTransferInput.lockScript i)
                 (AssetTransferInput.unlockScript i))
  /\ @AssetComposeTransaction.hash sample_primitives sample_siblings
       (AssetComposeTransaction.fromJSON
          (AssetComposeTransaction.toJSON
             (rebuilt sample_transaction
                [AssetTransferInput.new sample_out_point_with_lock [] []]
                sample_output)))
     = @AssetComposeTransaction.hash sample_primitives sample_siblings
         (rebuilt sample_transaction
            [AssetTransferInput.new sample_out_point_with_lock [] []]
            sample_output).
Proof.
  assert (C : forall i, @AssetTransferInput_toEncodeObject sample_siblings i
             = (fun p l u => RList [p; RBuf l; RBuf u])
                 (@AssetOutPoint.toEncodeObject sample_primitives
                    (AssetTransferInput.prevOut i))
                 (AssetTransferInput.lockScript i)
                 (AssetTransferInput.unlockScript i))
    by (intros i; reflexivity).
  split; [exact C|].
  exact (proj2 (@json_keeps_hash sample_primitives sample_siblings _ _ C)).
Defined.

(** X13. The encode object commits to every field: when the encoders of
    [H160] and [U64] tell their values apart, two transactions with the
    same encode object have the same networkId, shardId, metadata,
    approver, administrator and output, and inputs with the same encode
    objects. *)
Theorem toEncodeObject_commits {P : Primitives} {Sib : Siblings}
  (this other : AssetComposeTransaction.t) :
  (forall a b, H160_toEncodeObject a = H160_toEncodeObject b -> a = b) ->
  (forall a b, U64_toEncodeObject a = U64_toEncodeObject b -> a = b) ->
  AssetComposeTransaction.toEncodeObject this
  = AssetComposeTransaction.toEncodeObject other ->
  other = rebuilt this (AssetComposeTransaction.inputs other)
                       (AssetComposeTransaction.output this)
  /\ map AssetTransferInput_toEncodeObject (AssetComposeTransaction.inputs this)
     = map AssetTransferInput_toEncodeObject (AssetComposeTransaction.inputs other).
Proof.
  intros IH IU E.
  destruct this as [n s m a b i [l ps am]], other as [n' s' m' a' b' i' [l' ps' am']].
  unfold AssetComposeTransaction.toEncodeObject, rebuilt in *. cbn in *.
  injection E as En Es Em Ea Eb Ei El Eps Eam.
  assert (a = a') as ->.
  { destruct a as [[v]|], a' as [[v']|]; try discriminate Ea; [|reflexivity].
    now injection Ea as ->. }
  assert (b = b') as ->.
  { destruct b as [[v]|], b' as [[v']|]; try discriminate Eb; [|reflexivity].
    now injection Eb as ->. }
  assert (am = am') as ->.
  { destruct am as [v|], am' as [v'|]; try discriminate Eam; [|reflexivity].
    injection Eam as Ev. now rewrite (IU _ _ Ev). }
  assert (ps = ps') as ->.
  { clear -Eps. revert ps' Eps. induction ps as [|x ps IHps]; intros [|y ps'] Eps;
      try discriminate Eps; [reflexivity|].
    cbn in Eps. injection Eps as -> Eps. now rewrite (IHps _ Eps). }
  rewrite (IH _ _ El). subst. split; [reflexivity | exact Ei].
Qed.

Lemma sample_H160_encoder_apart (a b : H160.t) :
  @H160_toEncodeObject sample_primitives a = @H160_toEncodeObject sample_primitives b ->
  a = b.
Proof.
  destruct a as [v], b as [w]. cbn. intros [= ->]. reflexivity.
Defined.

Lemma sample_U64_encoder_apart (a b : U64.t) :
  @U64_toEncodeObject sample_primitives a = @U64_toEncodeObject sample_primitives b ->
  a = b.
Proof.
  cbn. intros E.
  assert (E' : ("0x" ++ U64.toString16 a)%string = ("0x" ++ U64.toString16 b)%string)
    by congruence.
  rewrite <- (U64_json a), <- (U64_json b). now rewrite E'.
Defined.

Lemma toEncodeObject_commits_witness :
  (forall a b, @H160_toEncodeObject sample_primitives a
               = @H160_toEncodeObject sample_primitives b -> a = b)
  /\ (forall a b, @U64_toEncodeObject sample_primitives a
                  = @U64_toEncodeObject sample_primitives b -> a = b)
  /\ @AssetComposeTransaction.toEncodeObject sample_primitives sample_siblings
       sample_transaction
     = @AssetComposeTransaction.toEncodeObject sample_primitives sample_siblings
         (AssetComposeTransaction.new sample_transaction)
  /\ AssetComposeTransaction.new sample_transaction
     = rebuilt sample_transaction
         (AssetComposeTransaction.inputs (AssetComposeTransaction.new sample_transaction))
         (AssetComposeTransaction.output sample_transaction).
Proof.
  split; [exact sample_H160_encoder_apart|].
  split; [exact sample_U64_encoder_apart|].
  split; [reflexivity|].
  exact (proj1 (@toEncodeObject_commits sample_primitives sample_siblings
                  sample_transaction (AssetComposeTransaction.new sample_transaction)
                  sample_H160_encoder_apart sample_U64_encoder_apart eq_refl)).
Defined.

(** ** More on the pool of the asset scheme *)

Lemma fold_sum_step_error {Sib : Siblings} (l : list AssetTransferInput.t)
  (start : Error + JsObject U64.t) (e : Error) :
  fold_left AssetComposeTransaction.sum_step l start = inl e ->
  start = inl e \/ exists a b, U64_plus a b = inl e.
Proof.
  revert start. induction l as [|x l IH]; intros start E; [now left|].
  cbn [fold_left] in E. apply IH in E as [E|E]; [|now right].
  destruct start as [e'|acc]; [now left|].
  right. unfold AssetComposeTransaction.sum_step in E. cbn [bind] in E.
  destruct (U64_plus _ _) as [e'|v] eqn:Ep; [|discriminate E].
  injection E as <-. eauto.
Qed.

(** X14. [getAssetScheme()] raises nothing of its own but "not
    implemented", and that exactly when the output amount is null, before
    any amount is added; every other failure is an error of [U64.plus].
    Without inputs and with an amount it returns an empty pool. *)
Theorem getAssetScheme_errors {Sib : Siblings} (this : AssetComposeTransaction.t) :
  (AssetMintOutput.amount (AssetComposeTransaction.output this) = None ->
     AssetComposeTransaction.getAssetScheme this = inl UnsupportedOperation)
  /\ (forall e, AssetComposeTransaction.getAssetScheme this = inl e ->
        (AssetMintOutput.amount (AssetComposeTransaction.output this) = None
         /\ e = UnsupportedOperation)
        \/ (AssetMintOutput.amount (AssetComposeTransaction.output this) <> None
            /\ exists a b, U64_plus a b = inl e))
  /\ (forall amount,
        AssetMintOutput.amount (AssetComposeTransaction.output this) = Some amount ->
        AssetComposeTransaction.inputs this = [] ->
        exists scheme,
          AssetComposeTransaction.getAssetScheme this = inr scheme
          /\ AssetScheme.amount scheme = amount
          /\ AssetScheme.pool scheme = []).
Proof.
  unfold AssetComposeTransaction.getAssetScheme.
  split; [intros ->; reflexivity|]. split.
  - intros e.
    destruct (AssetMintOutput.amount (AssetComposeTransaction.output this)) as [a|].
    + destruct (fold_left _ _ _) as [e'|acc] eqn:F; cbn [bind]; [|discriminate].
      intros [= <-]. right. split; [discriminate|].
      apply fold_sum_step_error in F as [F|F]; [discriminate F | exact F].
    + intros [= <-]. now left.
  - intros amount -> ->. cbn. eexists. repeat split.
Qed.

(** ** The unlock script of [P2PKHBurn] *)

Lemma byte_of_to_number (b : byte) : byte_of_number (byte_to_number b) = b.
Proof.
  unfold byte_of_number, byte_to_number.
  pose proof (Byte.to_N_bounded b) as B.
  rewrite Z.mod_small by lia.
  now rewrite N2Z.id, Byte.of_to_N.
Qed.

Lemma byte_to_of_number (z : Z) :
  0 <= z < 256 -> Byte.to_N (byte_of_number z) = Z.to_N z.
Proof.
  intros Hz. unfold byte_of_number. rewrite Z.mod_small by lia.
  pose proof (Byte.to_of_N_option_map (Z.to_N z)) as E.
  destruct (Byte.of_N (Z.to_N z)) as [b|]; cbn in E.
  - destruct (N.leb_spec (Z.to_N z) 255); [congruence | lia].
  - destruct (N.leb_spec (Z.to_N z) 255); [discriminate | lia].
Qed.

Lemma Buffer_from_numbers (b : Buffer) : Buffer_from_array (numbers b) = b.
Proof.
  unfold Buffer_from_array, numbers. rewrite map_map.
  rewrite (map_ext _ _ byte_of_to_number). apply map_id.
Qed.

(** X17. [createUnlockScript] asks the key store for a signature only after
    it got a public key: when the key store resolves [null] or the empty
    string, the promise is rejected with the unable-to-get-key error and
    nothing but the public key was asked; and whenever a script is returned
    both the public key and the signature were asked, in that order. *)
Theorem createUnlockScript_asks_in_order {P : Primitives} {O : Opcodes} {K : KeyStore}
  (key : string) (txhash : H256.t) (pass : option string)
  (tg : option SignatureTag.t) :
  let r := P2PKHBurn.createUnlockScript key txhash (Some (mkUnlockOptions pass tg)) in
  let asked_key := AskedPublicKey key pass in
  let asked_signature := AskedSignature key (H256.value txhash) pass in
  (forall pk, getPublicKey key pass = inr pk ->
     pk = None \/ pk = Some ""%string ->
     r = (inl (UnableToGetKey key), [asked_key]))
  /\ (In asked_signature (snd r)
      <-> exists pk, getPublicKey key pass = inr (Some pk) /\ pk <> ""%string)
  /\ (forall script, fst r = inr script -> snd r = [asked_key; asked_signature])
  /\ P2PKHBurn.createUnlockScript key txhash None
     = P2PKHBurn.createUnlockScript key txhash (Some (mkUnlockOptions None None)).
Proof.
  intros r asked_key asked_signature.
  unfold r, P2PKHBurn.createUnlockScript. cbn [passphrase].
  fold asked_key asked_signature.
  split; [|split; [|split; [|reflexivity]]].
  - intros pk -> [-> | ->]; reflexivity.
  - destruct (getPublicKey key pass) as [reason|[pk|]] eqn:G; cbn [P2PKHBurn.is_falsy].
    + cbn. split; [intros [A|[]]; discriminate A | intros (pk & A & _); discriminate A].
    + destruct (String.eqb_spec pk "") as [->|N].
      * cbn. split; [intros [A|[]]; discriminate A|].
        intros (pk & [= <-] & A). congruence.
      * split; [intros _; eauto|]. intros _.
        destruct (sign key (H256.value txhash) pass); cbn; auto.
    + cbn. split; [intros [A|[]]; discriminate A | intros (pk & A & _); discriminate A].
  - intros script.
    destruct (getPublicKey key pass) as [reason|pk]; [discriminate|].
    destruct (P2PKHBurn.is_falsy pk); [discriminate|].
    destruct (sign key (H256.value txhash) pass); [discriminate | reflexivity].
Qed.

(** X18. The unlock script can be read back: with a signature of 65 bytes
    and an encoded tag shorter than 256 bytes, the returned script is two
    pushed items, the signature and then the encoded tag, each under a
    length byte that is its length, and nothing follows them. *)
Theorem createUnlockScript_reads_back {P : Primitives} {O : Opcodes} {K : KeyStore}
  (key : string) (txhash : H256.t) (pass : option string) (tg : SignatureTag.t)
  (pk signature : string) :
  getPublicKey key pass = inr (Some pk) ->
  pk <> ""%string ->
  sign key (H256.value txhash) pass = inr signature ->
  List.length (Buffer_from_hex signature) = 65%nat ->
  (List.length (encodeSignatureTag tg) < 256)%nat ->
  exists script rest,
    fst (P2PKHBurn.createUnlockScript key txhash
           (Some (mkUnlockOptions pass (Some tg))))
    = inr script
    /\ List.length script = (69 + List.length (encodeSignatureTag tg))%nat
    /\ read_pushed script = Some (Buffer_from_hex signature, rest)
    /\ read_pushed rest = Some (encodeSignatureTag tg, []).
Proof.
  intros G N S L65 Lt.
  unfold P2PKHBurn.createUnlockScript. cbn [passphrase]. rewrite G.
  cbn [P2PKHBurn.is_falsy]. destruct (String.eqb_spec pk ""); [congruence|].
  rewrite S. cbn [fst].
  set (sig := Buffer_from_hex signature) in *.
  set (tag := encodeSignatureTag tg) in *.
  assert (E : Buffer_from_array
                ([PUSHB; 65] ++ numbers sig
                 ++ [PUSHB; Z.of_nat (List.length tag)] ++ numbers tag)%list
              = (byte_of_number PUSHB :: x41%byte :: sig
                 ++ byte_of_number PUSHB :: byte_of_number (Z.of_nat (List.length tag))
                 :: tag)%list).
  { unfold Buffer_from_array. rewrite !map_app.
    fold (Buffer_from_array (numbers sig)). fold (Buffer_from_array (numbers tag)).
    now rewrite !Buffer_from_numbers. }
  rewrite E.
  set (rest := (byte_of_number PUSHB
                :: byte_of_number (Z.of_nat (List.length tag)) :: tag)%list).
  exists (byte_of_number PUSHB :: x41%byte :: sig ++ rest)%list, rest.
  split; [reflexivity|]. split; [|split].
  - cbn [List.length]. rewrite length_app. unfold rest. cbn [List.length]. lia.
  - unfold read_pushed.
    replace (N.to_nat (Byte.to_N x41)) with (List.length sig)
      by (rewrite L65; reflexivity).
    assert (Hle : (List.length sig <=? List.length (sig ++ rest))%nat = true)
      by (apply Nat.leb_le; rewrite length_app; lia).
    rewrite Hle, firstn_app, skipn_app, Nat.sub_diag, firstn_all, skipn_all.
    cbn [firstn skipn app]. now rewrite app_nil_r.
  - unfold read_pushed, rest. rewrite byte_to_of_number by lia.
    replace (N.to_nat (Z.to_N (Z.of_nat (List.length tag)))) with (List.length tag)
      by lia.
    rewrite Nat.leb_refl, firstn_all, skipn_all. reflexivity.
Qed.

Lemma createUnlockScript_reads_back_witness :
  @getPublicKey sample_key_store "known" None = inr (Some "02aa"%string)
  /\ "02aa"%string <> ""%string
  /\ @sign sample_key_store "known" (H256.value sample_hash) None = inr "00"%string
  /\ List.length (@Buffer_from_hex sample_signing_primitives "00") = 65%nat
  /\ (List.length (@encodeSignatureTag sample_signing_primitives
                     (SignatureTag.new InputAll OutputAll)) < 256)%nat
  /\ exists script rest,
       fst (@P2PKHBurn.createUnlockScript sample_signing_primitives sample_opcodes
              sample_key_store "known" sample_hash
              (Some (mkUnlockOptions None (Some (SignatureTag.new InputAll OutputAll)))))
       = inr script
       /\ read_pushed script = Some (repeat x1b%byte 65, rest)
       /\ read_pushed rest = Some ([x03]%byte, []).
Proof.
  assert (N : "02aa"%string <> ""%string) by discriminate.
  assert (L : (List.length (@encodeSignatureTag sample_signing_primitives
                              (SignatureTag.new InputAll OutputAll)) < 256)%nat)
    by (cbn; lia).
  split; [reflexivity|]. split; [exact N|]. split; [reflexivity|].
  split; [reflexivity|]. split; [exact L|].
  destruct (@createUnlockScript_reads_back sample_signing_primitives sample_opcodes
              sample_key_store "known" sample_hash None
              (SignatureTag.new InputAll OutputAll) "02aa" "00"
              eq_refl N eq_refl eq_refl L)
    as (script & rest & E & _ & R1 & R2).
  exists script, rest. split; [exact E|]. split; [exact R1 | exact R2].
Defined.
